(** * chua_bn.py: tiered trailing take-profit / stop-loss bot

    A shallow embedding of [MultiAssetTradingBot] (src/chua_bn.py) and the
    properties of its risk-management loop.

    Modelling conventions.
    - A Python float is taken as the rational it stands for ([Q]), so the
      floats of the model are finite.  Comparisons, [abs] and the unary
      minus are exact on floats.  A difference, a product or a quotient is
      the exact result rounded: the rounding is a parameter of the methods
      ([Rounding]), of which only the preservation of the sign is assumed,
      and [binary64] is the rounding to the nearest double, ties to even,
      with which the methods run on sample inputs.  A float division by zero
      raises [ZeroDivisionError], which is modelled explicitly.
    - [self.highest_profits] and [self.current_tiers] are dicts keyed by
      symbol ([gmap string _]); [self.detected_positions] and
      [self.blacklist] are sets ([gset string]).
    - The four tier strings of the source are the constructors of [Tier].
    - The logger, the Feishu notifier and the exchange are the outside world.
      Every call to them is appended to a journal kept next to the bot's
      fields, in the order the calls are made.  A notification is recorded
      when [send_feishu_notification] is called, whether or not a webhook is
      configured.  Whether [exchange.create_order] returns or raises is
      decided by an arbitrary function of the journal so far and of the
      order.
    - [exchange.fetch_positions()] is an input: the run of the bot is given
      the answers of the exchange, one per tick ([None] when the call
      raises); the endless loop is followed for as many ticks as there are
      answers.  The [print], the [time.sleep] and [KeyboardInterrupt] are
      left out, and the texts of the messages are kept as their arguments. *)

From Stdlib Require Import QArith Qabs Qminmax Lqa String Ascii.
From stdpp Require Import gmap strings list.

Local Open Scope string_scope.
Local Open Scope list_scope.

(** ** Configuration (the fields read in [__init__]) *)

Record Config := {
  leverage : Q;
  stop_loss_pct : Q;
  low_trail_stop_loss_pct : Q;
  trail_stop_loss_pct : Q;
  higher_trail_stop_loss_pct : Q;
  low_trail_profit_threshold : Q;
  first_trail_profit_threshold : Q;
  second_trail_profit_threshold : Q;
  blacklist : gset string
}.

(** ** Data *)

(** The values stored in [current_tiers]:
    "无", "低档保护止盈", "第一档移动止盈", "第二档移动止盈". *)
Inductive Tier := TierNone | LowProtect | FirstTrail | SecondTrail.

#[global] Instance Tier_eq_dec : EqDecision Tier.
Proof. solve_decision. Defined.

Definition tier_rank (t : Tier) : nat :=
  match t with
  | TierNone => 0
  | LowProtect => 1
  | FirstTrail => 2
  | SecondTrail => 3
  end.

Definition tier_le (t1 t2 : Tier) : Prop := tier_rank t1 <= tier_rank t2.

(** [position['info']]: a key may be absent. *)
Record Info := {
  positionAmt : option Q;
  entryPrice : option Q;
  markPrice : option Q
}.

(** One element of the list returned by [exchange.fetch_positions()]. *)
Record Position := {
  pos_symbol : string;
  pos_info : Info;
  pos_side : option string
}.

(** The arguments of one [exchange.create_order] call:
    [(symbol, 'MARKET', direction, amount, None,
      {'type': 'future', 'positionSide': side})]. *)
Record Order := {
  ord_symbol : string;
  ord_type : string;
  ord_direction : string;
  ord_amount : Q;
  ord_positionSide : string
}.

(** The exceptions that the model raises: the division by zero of lines 153
    and 155, and a failing call to the exchange.  What else the source can
    raise (a value that [float] rejects, a side that is not a string, an
    interrupt) is not modelled, and no property below relies on these two
    being the only ones. *)
Inductive Exn := ZeroDivisionError | ExchangeError.

(** The texts handed to the logger and to the notifier, by the statement
    that builds them. *)
Inductive Msg :=
| MsgLoopStart
| MsgAbnormalExit (e : Exn)
| MsgFetchError
| MsgSideNone (symbol : string)
| MsgBlacklisted (symbol : string)
| MsgFirstDetected (symbol : string) (position_amt entry_price : Q) (side : string)
| MsgMonitor (symbol : string) (position_amt : Q) (side : string)
    (entry_price current_price profit_pct highest_profit : Q) (tier : Tier)
| MsgFloor (floor : Q)
| MsgLowTrigger (symbol : string) (profit_pct : Q)
| MsgTrailTrigger (symbol : string) (tier : Tier) (highest_profit profit_pct : Q)
| MsgStopLoss (symbol : string) (profit_pct : Q)
| MsgClosed (symbol : string) (amount : Q) (side : string)
| MsgCloseError (symbol : string).

Inductive Event :=
| LogInfo (m : Msg)
| LogWarning (m : Msg)
| LogError (m : Msg)
| Notify (m : Msg)
| CreateOrder (o : Order) (returned : bool).

(** The mutable fields of the bot, and the journal of its calls to the
    outside. *)
Record Bot := {
  highest_profits : gmap string Q;
  current_tiers : gmap string Tier;
  detected_positions : gset string;
  journal : list Event
}.

(** The state built by [__init__]. *)
Definition init_bot : Bot :=
  {| highest_profits := ∅; current_tiers := ∅; detected_positions := ∅;
     journal := [] |}.

(** ** A state and exception monad for the methods *)

Inductive Res (A : Type) :=
| Ret (a : A) (b : Bot)
| Raise (e : Exn) (b : Bot).
Arguments Ret {A} a b.
Arguments Raise {A} e b.

Definition M (A : Type) := Bot -> Res A.

Definition ret {A} (a : A) : M A := fun b => Ret a b.
Definition raise {A} (e : Exn) : M A := fun b => Raise e b.
Definition bind {A B} (m : M A) (k : A -> M B) : M B :=
  fun b => match m b with
           | Ret a b' => k a b'
           | Raise e b' => Raise e b'
           end.
Definition get : M Bot := fun b => Ret b b.
Definition modify (f : Bot -> Bot) : M unit := fun b => Ret tt (f b).

(** [try: m except Exception as e: h e] *)
Definition try_except {A} (m : M A) (h : Exn -> M A) : M A :=
  fun b => match m b with
           | Ret a b' => Ret a b'
           | Raise e b' => h e b'
           end.

Notation "x <- m ;; k" := (bind m (fun x => k))
  (at level 100, m at next level, right associativity).
Notation "m ;;; k" := (bind m (fun _ => k))
  (at level 100, right associativity).

Definition res_state {A} (r : Res A) : Bot :=
  match r with Ret _ b => b | Raise _ b => b end.

Definition emit (e : Event) : M unit :=
  modify (fun b =>
    {| highest_profits := highest_profits b; current_tiers := current_tiers b;
       detected_positions := detected_positions b;
       journal := journal b ++ [e] |}).

Definition set_highest (symbol : string) (v : Q) : M unit :=
  modify (fun b =>
    {| highest_profits := <[symbol := v]> (highest_profits b);
       current_tiers := current_tiers b;
       detected_positions := detected_positions b; journal := journal b |}).

Definition set_tier (symbol : string) (t : Tier) : M unit :=
  modify (fun b =>
    {| highest_profits := highest_profits b;
       current_tiers := <[symbol := t]> (current_tiers b);
       detected_positions := detected_positions b; journal := journal b |}).

Definition add_detected (symbol : string) : M unit :=
  modify (fun b =>
    {| highest_profits := highest_profits b; current_tiers := current_tiers b;
       detected_positions := {[symbol]} ∪ detected_positions b;
       journal := journal b |}).

(** [detected_positions.discard(symbol)], [highest_profits.pop(symbol, None)]
    and [current_tiers.pop(symbol, None)]. *)
Definition forget (symbol : string) : M unit :=
  modify (fun b =>
    {| highest_profits := delete symbol (highest_profits b);
       current_tiers := delete symbol (current_tiers b);
       detected_positions := detected_positions b ∖ {[symbol]};
       journal := journal b |}).

(** ** Numbers and strings *)

(** [x > y] is [Qltb y x]; [x <= y] is [Qle_bool x y]. *)
Definition Qltb (x y : Q) : bool :=
  match (x ?= y)%Q with Lt => true | _ => false end.

(** The rounding of the exact result of an operation to a float.  It keeps
    the sign of what it rounds. *)
Class Rounding := {
  round : Q -> Q;
  round_nonneg : forall x : Q, (0 <= x)%Q -> (0 <= round x)%Q;
  round_nonpos : forall x : Q, (x <= 0)%Q -> (round x <= 0)%Q
}.

(** [x - y], [x * y] and [x / y] on floats. *)
Definition fsub `{Rounding} (x y : Q) : Q := round (x - y)%Q.
Definition fmul `{Rounding} (x y : Q) : Q := round (x * y)%Q.
Definition fquot `{Rounding} (x y : Q) : Q := round (x / y)%Q.

(** Float division; a zero divisor raises. *)
Definition float_div `{Rounding} (x y : Q) : M Q :=
  if Qeq_bool y 0 then raise ZeroDivisionError else ret (fquot x y).

(** The integer nearest to [num / den], the even one of two at the same
    distance, for [0 <= num] and [0 < den]. *)
Definition round_half_even (num den : Z) : Z :=
  let q := (num / den)%Z in
  match (2 * (num mod den) ?= den)%Z with
  | Lt => q
  | Gt => (q + 1)%Z
  | Eq => if Z.even q then q else (q + 1)%Z
  end.

(** The exponent [e] of the double nearest to [n / d]: the one with
    [2^52 <= n / d / 2^e < 2^53], and -1074 for the subnormal numbers. *)
Definition binary64_exponent (n : Z) (d : positive) : Z :=
  let l := (Z.log2 n - Z.log2 (Zpos d))%Z in
  let below :=
    if (0 <=? l)%Z then (n <? Zpos d * 2 ^ l)%Z
    else (n * 2 ^ (- l) <? Zpos d)%Z in
  Z.max ((if below then l - 1 else l) - 52) (-1074).

(** The double nearest to [n / d], for [0 < n]. *)
Definition binary64_magnitude (n : Z) (d : positive) : Q :=
  let e := binary64_exponent n d in
  if (0 <=? e)%Z
  then inject_Z (round_half_even n (Zpos d * 2 ^ e) * 2 ^ e)
  else Qred (Qmake (round_half_even (n * 2 ^ (- e)) (Zpos d))
               (Z.to_pos (2 ^ (- e)))).

(** Rounding to the nearest double, ties to even; results beyond the
    largest double, which are infinite in Python, are left out. *)
Definition round64 (x : Q) : Q :=
  match Qnum x with
  | Z0 => 0%Q
  | Zpos n => binary64_magnitude (Zpos n) (Qden x)
  | Zneg n => Qopp (binary64_magnitude (Zpos n) (Qden x))
  end.

Definition binary64 : Rounding.
Proof.
  assert (Hrhe : forall num den : Z,
    (0 <= num)%Z -> (0 < den)%Z -> (0 <= round_half_even num den)%Z).
  { intros num den Hn Hd. unfold round_half_even.
    pose proof (Z.div_pos num den Hn Hd) as Hq.
    destruct (2 * (num mod den) ?= den)%Z; [| lia | lia].
    destruct (Z.even (num / den)); lia. }
  assert (Hmag : forall (n d : positive),
    (0 <= binary64_magnitude (Zpos n) d)%Q).
  { intros n d. unfold binary64_magnitude.
    destruct (0 <=? binary64_exponent (Z.pos n) d)%Z eqn:E.
    - apply Z.leb_le in E.
      assert (0 < 2 ^ binary64_exponent (Z.pos n) d)%Z as Hp
        by (by apply Z.pow_pos_nonneg).
      assert (0 <= round_half_even (Z.pos n)
                     (Z.pos d * 2 ^ binary64_exponent (Z.pos n) d))%Z as Hm
        by (apply Hrhe; lia).
      unfold Qle, inject_Z; simpl. nia.
    - rewrite Qred_correct.
      assert (0 <= round_half_even
                     (Z.pos n * 2 ^ (- binary64_exponent (Z.pos n) d))
                     (Z.pos d))%Z as Hm.
      { apply Hrhe; [| lia].
        apply Z.mul_nonneg_nonneg; [lia |]. apply Z.pow_nonneg. lia. }
      unfold Qle; simpl. lia. }
  refine {| round := round64 |}.
  - intros [n d] Hx. unfold round64; simpl. destruct n as [|n|n].
    + apply Qle_refl.
    + apply Hmag.
    + unfold Qle in Hx; simpl in Hx. lia.
  - intros [n d] Hx. unfold round64; simpl. destruct n as [|n|n].
    + apply Qle_refl.
    + unfold Qle in Hx; simpl in Hx. lia.
    + pose proof (Hmag n d) as H0. apply Qopp_le_compat in H0. exact H0.
Defined.

Definition lower_ascii (c : ascii) : ascii :=
  let n := nat_of_ascii c in
  if (65 <=? n)%nat && (n <=? 90)%nat then ascii_of_nat (n + 32) else c.

(** [str.lower()] on ASCII text. *)
Fixpoint lower (s : string) : string :=
  match s with
  | EmptyString => EmptyString
  | String c s' => String (lower_ascii c) (lower s')
  end.

(** ** The methods *)

Section Bot.

Variable cfg : Config.
Context {fl : Rounding}.

(** Does [exchange.create_order] return (true) or raise (false), given the
    calls made so far. *)
Variable exchange : list Event -> Order -> bool.

Definition logger_info (m : Msg) : M unit := emit (LogInfo m).
Definition logger_warning (m : Msg) : M unit := emit (LogWarning m).
Definition logger_error (m : Msg) : M unit := emit (LogError m).

(** [send_feishu_notification]: best effort, never raises (lines 64-81). *)
Definition send_feishu_notification (m : Msg) : M unit := emit (Notify m).

Definition create_order (o : Order) : M unit :=
  b <- get ;;
  if exchange (journal b) o
  then emit (CreateOrder o true)
  else emit (CreateOrder o false) ;;; raise ExchangeError.

(** The order built on line 112. *)
Definition close_order (symbol : string) (amount : Q) (side : string) : Order :=
  {| ord_symbol := symbol; ord_type := "MARKET";
     ord_direction := if String.eqb side "short" then "buy" else "sell";
     ord_amount := amount; ord_positionSide := side |}.

(** [close_position] (lines 110-121). *)
Definition close_position (symbol : string) (amount : Q) (side : string) : M bool :=
  try_except
    (create_order (close_order symbol amount side) ;;;
     logger_info (MsgClosed symbol amount side) ;;;
     send_feishu_notification (MsgClosed symbol amount side) ;;;
     forget symbol ;;;
     ret true)
    (fun _ => logger_error (MsgCloseError symbol) ;;; ret false).

(** The filter of [fetch_positions] (line 103). *)
Definition held (pos : Position) : bool :=
  negb (Qeq_bool (default 0%Q (positionAmt (pos_info pos))) 0)
  && bool_decide (pos_side pos <> None).

(** [fetch_positions] (lines 97-108); [None] is an exchange call that
    raised. *)
Definition fetch_positions (response : option (list Position)) : M (list Position) :=
  match response with
  | Some positions => ret (filter (fun pos => held pos = true) positions)
  | None => logger_error MsgFetchError ;;; ret []
  end.

(** The tier chosen on lines 165-172. *)
Definition classify (highest_profit : Q) : Tier :=
  if Qle_bool (second_trail_profit_threshold cfg) highest_profit then SecondTrail
  else if Qle_bool (first_trail_profit_threshold cfg) highest_profit then FirstTrail
  else if Qle_bool (low_trail_profit_threshold cfg) highest_profit then LowProtect
  else TierNone.

(** Lines 159-162: read the stored peak, raise it if the profit is above. *)
Definition track_peak (symbol : string) (profit_pct : Q) : M Q :=
  b <- get ;;
  let highest_profit := default 0%Q (highest_profits b !! symbol) in
  if Qltb highest_profit profit_pct
  then set_highest symbol profit_pct ;;; ret profit_pct
  else ret highest_profit.

(** Lines 179-202: the exit check of the tier.  The result tells whether
    the [continue] of a branch was reached. *)
Definition tier_exit (symbol : string) (position_amt : Q) (side : string)
    (profit_pct highest_profit : Q) (current_tier : Tier) : M bool :=
  match current_tier with
  | LowProtect =>
      logger_info (MsgFloor (low_trail_stop_loss_pct cfg)) ;;;
      if Qle_bool profit_pct (low_trail_stop_loss_pct cfg) then
        logger_info (MsgLowTrigger symbol profit_pct) ;;;
        close_position symbol (Qabs position_amt) side ;;;
        ret true
      else ret false
  | FirstTrail =>
      let trail_stop_loss := fmul highest_profit (fsub 1 (trail_stop_loss_pct cfg)) in
      logger_info (MsgFloor trail_stop_loss) ;;;
      if Qle_bool profit_pct trail_stop_loss then
        logger_info (MsgTrailTrigger symbol FirstTrail highest_profit profit_pct) ;;;
        close_position symbol (Qabs position_amt) side ;;;
        ret true
      else ret false
  | SecondTrail =>
      let trail_stop_loss :=
        fmul highest_profit (fsub 1 (higher_trail_stop_loss_pct cfg)) in
      logger_info (MsgFloor trail_stop_loss) ;;;
      if Qle_bool profit_pct trail_stop_loss then
        logger_info (MsgTrailTrigger symbol SecondTrail highest_profit profit_pct) ;;;
        close_position symbol (Qabs position_amt) side ;;;
        ret true
      else ret false
  | TierNone => ret false
  end.

(** Lines 204-206: the absolute stop-loss. *)
Definition stop_loss_exit (symbol : string) (position_amt : Q) (side : string)
    (profit_pct : Q) : M unit :=
  if Qle_bool profit_pct (- stop_loss_pct cfg) then
    logger_info (MsgStopLoss symbol profit_pct) ;;;
    close_position symbol (Qabs position_amt)
      (if String.eqb side "long" then "sell" else "buy") ;;;
    ret tt
  else ret tt.

(** Lines 159-206: what is done with the profit of one position. *)
Definition evaluate (symbol : string) (position_amt : Q) (side : string)
    (entry_price current_price profit_pct : Q) : M unit :=
  highest_profit <- track_peak symbol profit_pct ;;
  let current_tier := classify highest_profit in
  set_tier symbol current_tier ;;;
  logger_info (MsgMonitor symbol position_amt side entry_price current_price
                 profit_pct highest_profit current_tier) ;;;
  continued <- tier_exit symbol position_amt side profit_pct highest_profit
                 current_tier ;;
  if continued : bool then ret tt
  else stop_loss_exit symbol position_amt side profit_pct.

(** Lines 145-150: a symbol seen for the first time. *)
Definition first_sight (symbol : string) (position_amt entry_price : Q)
    (side : string) : M unit :=
  b <- get ;;
  if decide (symbol ∉ detected_positions b) then
    add_detected symbol ;;;
    set_highest symbol 0%Q ;;;
    set_tier symbol TierNone ;;;
    logger_info (MsgFirstDetected symbol position_amt entry_price side) ;;;
    send_feishu_notification (MsgFirstDetected symbol position_amt entry_price side)
  else ret tt.

(** Lines 139-143: a blacklisted symbol. *)
Definition skip_blacklisted (symbol : string) : M unit :=
  b <- get ;;
  if decide (symbol ∉ detected_positions b) then
    send_feishu_notification (MsgBlacklisted symbol) ;;;
    add_detected symbol
  else ret tt.

(** The body of the loop of [monitor_positions] (lines 127-206). *)
Definition monitor_position (position : Position) : M unit :=
  let symbol := pos_symbol position in
  let position_amt := default 0%Q (positionAmt (pos_info position)) in
  let entry_price := default 0%Q (entryPrice (pos_info position)) in
  let current_price := default 0%Q (markPrice (pos_info position)) in
  match pos_side position with
  | None => logger_warning (MsgSideNone symbol)
  | Some side =>
      let side := lower side in
      if decide (symbol ∈ blacklist cfg) then skip_blacklisted symbol
      else
        first_sight symbol position_amt entry_price side ;;;
        if String.eqb side "long" then
          r <- float_div (fsub current_price entry_price) entry_price ;;
          evaluate symbol position_amt side entry_price current_price (fmul r 100)
        else if String.eqb side "short" then
          r <- float_div (fsub entry_price current_price) entry_price ;;
          evaluate symbol position_amt side entry_price current_price (fmul r 100)
        else ret tt
  end.

Fixpoint for_each (positions : list Position) : M unit :=
  match positions with
  | [] => ret tt
  | position :: rest => monitor_position position ;;; for_each rest
  end.

(** [monitor_positions] (lines 123-206), on the answer of the exchange. *)
Definition monitor_positions (response : option (list Position)) : M unit :=
  positions <- fetch_positions response ;;
  for_each positions.

(** The [while True] loop of [schedule_task], for as many ticks as there
    are answers of the exchange. *)
Fixpoint main_loop (ticks : list (option (list Position))) : M unit :=
  match ticks with
  | [] => ret tt
  | response :: rest => monitor_positions response ;;; main_loop rest
  end.

(** [schedule_task] (lines 83-95). *)
Definition schedule_task (ticks : list (option (list Position))) : M unit :=
  logger_info MsgLoopStart ;;;
  try_except (main_loop ticks)
    (fun e => logger_error (MsgAbnormalExit e) ;;;
              send_feishu_notification (MsgAbnormalExit e)).

End Bot.

(** ** States and journals used to describe the runs *)

(** [b] after the calls [es] to the outside. *)
Definition journaled (b : Bot) (es : list Event) : Bot :=
  {| highest_profits := highest_profits b; current_tiers := current_tiers b;
     detected_positions := detected_positions b;
     journal := journal b ++ es |}.

(** [b] after the three removals of [close_position]. *)
Definition forgotten (symbol : string) (b : Bot) : Bot :=
  {| highest_profits := delete symbol (highest_profits b);
     current_tiers := delete symbol (current_tiers b);
     detected_positions := detected_positions b ∖ {[symbol]};
     journal := journal b |}.

(** What was appended to the journal between [b] and [b']. *)
Definition delta (b b' : Bot) : list Event :=
  drop (length (journal b)) (journal b').

(** The [create_order] calls of a journal, oldest first. *)
Fixpoint orders_of (es : list Event) : list (Order * bool) :=
  match es with
  | [] => []
  | CreateOrder o r :: es' => (o, r) :: orders_of es'
  | _ :: es' => orders_of es'
  end.

(** Those of them that are for [symbol]. *)
Definition orders_for (symbol : string) (es : list Event) : list (Order * bool) :=
  filter (fun x => ord_symbol (fst x) = symbol) (orders_of es).

(** The number of [create_order] calls for [symbol] that returned. *)
Definition closes (symbol : string) (es : list Event) : nat :=
  length (filter (fun x => snd x = true) (orders_for symbol es)).

(** Was the message of a tier exit (lines 182, 190, 199) logged? *)
Definition is_tier_trigger (e : Event) : bool :=
  match e with
  | LogInfo (MsgLowTrigger _ _) => true
  | LogInfo (MsgTrailTrigger _ _ _ _) => true
  | _ => false
  end.

(** Was the message of the absolute stop-loss (line 205) logged? *)
Definition is_stop_trigger (e : Event) : bool :=
  match e with
  | LogInfo (MsgStopLoss _ _) => true
  | _ => false
  end.

Definition tier_triggered (es : list Event) : bool := existsb is_tier_trigger es.
Definition stop_triggered (es : list Event) : bool := existsb is_stop_trigger es.

(** Notifications that name [symbol] as a detected position, blacklisted or
    not. *)
Definition is_detection_note (symbol : string) (e : Event) : bool :=
  match e with
  | Notify (MsgBlacklisted s) => String.eqb s symbol
  | Notify (MsgFirstDetected s _ _ _) => String.eqb s symbol
  | _ => false
  end.

Definition detection_notes (symbol : string) (es : list Event) : nat :=
  length (filter (fun e => is_detection_note symbol e = true) es).

(** The profit percentages logged for [symbol] (line 176) since the last
    time it was logged as detected for the first time (line 149). *)
Definition observe_event (symbol : string) (acc : list Q) (e : Event) : list Q :=
  match e with
  | LogInfo (MsgFirstDetected s _ _ _) =>
      if String.eqb s symbol then [] else acc
  | LogInfo (MsgMonitor s _ _ _ _ profit_pct _ _) =>
      if String.eqb s symbol then acc ++ [profit_pct] else acc
  | _ => acc
  end.

Definition observed (symbol : string) (es : list Event) : list Q :=
  fold_left (observe_event symbol) es [].

(** The largest of [0] and the values of [ps]. *)
Definition peak_of (ps : list Q) : Q := fold_left Qmax ps 0%Q.

(** Events that are neither orders, nor detections, nor observations. *)
Definition quiet (e : Event) : bool :=
  match e with
  | CreateOrder _ _ => false
  | LogInfo (MsgFirstDetected _ _ _ _) => false
  | LogInfo (MsgMonitor _ _ _ _ _ _ _ _) => false
  | Notify (MsgFirstDetected _ _ _ _) => false
  | Notify (MsgBlacklisted _) => false
  | _ => true
  end.

(** Did one of the orders of a journal go through? *)
Definition accepted (es : list Event) : bool :=
  existsb snd (orders_of es).

Definition is_warning (e : Event) : bool :=
  match e with
  | LogWarning _ => true
  | _ => false
  end.

(** The maximum of a sequence of profits, when it has one. *)
Definition seq_max (ps : list Q) : option Q :=
  match ps with
  | [] => None
  | p :: ps' => Some (fold_left Qmax ps' p)
  end.

Section Summary.

Variable cfg : Config.
Context {fl : Rounding}.

(** The floor of a tier as the specification gives it: the configured low
    floor for LowProtect, the peak times one minus the give-back fraction,
    in floating point, for the two trailing tiers, none without a tier. *)
Definition spec_floor (t : Tier) (highest_profit : Q) : option Q :=
  match t with
  | TierNone => None
  | LowProtect => Some (low_trail_stop_loss_pct cfg)
  | FirstTrail => Some (fmul highest_profit (fsub 1 (trail_stop_loss_pct cfg)))
  | SecondTrail =>
      Some (fmul highest_profit (fsub 1 (higher_trail_stop_loss_pct cfg)))
  end.

(** The trailing check of the specification: close when the profit is at or
    under the floor of the tier. *)
Definition spec_tier_close (t : Tier) (profit_pct highest_profit : Q) : Prop :=
  match spec_floor t highest_profit with
  | Some floor => (profit_pct <= floor)%Q
  | None => False
  end.

(** The text logged when the exit of tier [t] fires. *)
Definition trigger_msg (t : Tier) (symbol : string) (highest_profit profit_pct : Q) : Msg :=
  match t with
  | LowProtect => MsgLowTrigger symbol profit_pct
  | _ => MsgTrailTrigger symbol t highest_profit profit_pct
  end.

(** The peak kept for [symbol] once [profit_pct] has been seen. *)
Definition new_peak (b : Bot) (symbol : string) (profit_pct : Q) : Q :=
  let highest_profit := default 0%Q (highest_profits b !! symbol) in
  if Qltb highest_profit profit_pct then profit_pct else highest_profit.

(** [b] after lines 159-177 for a position of [symbol] with profit
    [profit_pct]. *)
Definition observed_state (symbol : string) (position_amt : Q) (side : string)
    (entry_price current_price profit_pct : Q) (b : Bot) : Bot :=
  let highest_profit := new_peak b symbol profit_pct in
  {| highest_profits :=
       if Qltb (default 0%Q (highest_profits b !! symbol)) profit_pct
       then <[symbol := profit_pct]> (highest_profits b)
       else highest_profits b;
     current_tiers := <[symbol := classify cfg highest_profit]> (current_tiers b);
     detected_positions := detected_positions b;
     journal := journal b ++
       [LogInfo (MsgMonitor symbol position_amt side entry_price current_price
                   profit_pct highest_profit (classify cfg highest_profit))] |}.

(** [b] after lines 146-150 for [symbol]. *)
Definition detected_state (symbol : string) (position_amt entry_price : Q)
    (side : string) (b : Bot) : Bot :=
  {| highest_profits := <[symbol := 0%Q]> (highest_profits b);
     current_tiers := <[symbol := TierNone]> (current_tiers b);
     detected_positions := {[symbol]} ∪ detected_positions b;
     journal := journal b ++
       [LogInfo (MsgFirstDetected symbol position_amt entry_price side);
        Notify (MsgFirstDetected symbol position_amt entry_price side)] |}.

(** [b] after lines 141-142 for [symbol]. *)
Definition blacklisted_state (symbol : string) (b : Bot) : Bot :=
  {| highest_profits := highest_profits b; current_tiers := current_tiers b;
     detected_positions := {[symbol]} ∪ detected_positions b;
     journal := journal b ++ [Notify (MsgBlacklisted symbol)] |}.

(** [b] after a [close_position] whose order went through. *)
Definition closed_state (symbol : string) (amount : Q) (side : string) (b : Bot) : Bot :=
  forgotten symbol
    (journaled b [CreateOrder (close_order symbol amount side) true;
                  LogInfo (MsgClosed symbol amount side);
                  Notify (MsgClosed symbol amount side)]).

(** [b] after a [close_position] whose order was refused. *)
Definition unclosed_state (symbol : string) (amount : Q) (side : string) (b : Bot) : Bot :=
  journaled b [CreateOrder (close_order symbol amount side) false;
               LogError (MsgCloseError symbol)].

(** The changes of state that the methods are made of. *)
Inductive step : Bot -> Bot -> Prop :=
| step_quiet b e :
    quiet e = true -> step b (journaled b [e])
| step_blacklisted b symbol :
    symbol ∈ blacklist cfg -> symbol ∉ detected_positions b ->
    step b (blacklisted_state symbol b)
| step_detected b symbol position_amt entry_price side :
    symbol ∉ blacklist cfg -> symbol ∉ detected_positions b ->
    step b (detected_state symbol position_amt entry_price side b)
| step_observed b symbol position_amt side entry_price current_price profit_pct :
    symbol ∉ blacklist cfg -> symbol ∈ detected_positions b ->
    step b (observed_state symbol position_amt side entry_price current_price
              profit_pct b)
| step_closed b symbol amount side :
    symbol ∉ blacklist cfg ->
    step b (closed_state symbol amount side b)
| step_unclosed b symbol amount side :
    symbol ∉ blacklist cfg ->
    step b (unclosed_state symbol amount side b).

(** What holds of a symbol outside the blacklist: it is tracked exactly
    when it is marked as detected, its stored peak is the largest of [0] and
    the profits seen since its detection, and its stored tier is the one of
    that peak as soon as one profit has been seen. *)
Definition tracked_ok (symbol : string) (b : Bot) : Prop :=
  match highest_profits b !! symbol with
  | Some h =>
      (symbol ∈ detected_positions b) /\
      (h = peak_of (observed symbol (journal b))) /\
      (current_tiers b !! symbol =
         Some (match observed symbol (journal b) with
               | [] => TierNone
               | _ :: _ => classify cfg h
               end))
  | None =>
      (symbol ∉ detected_positions b) /\ (current_tiers b !! symbol = None)
  end.

(** What holds of a blacklisted symbol: it is never tracked, no order was
    ever sent for it, and it was notified as detected at most once, which
    the detection mark remembers. *)
Definition excluded_ok (symbol : string) (b : Bot) : Prop :=
  (highest_profits b !! symbol = None) /\
  (current_tiers b !! symbol = None) /\
  (orders_for symbol (journal b) = []) /\
  (detection_notes symbol (journal b) <= 1) /\
  (symbol ∉ detected_positions b -> detection_notes symbol (journal b) = 0).

(** The side handed to [close_position] by lines 179-206, if any: the held
    side by the exit of the tier, the direction of line 206 by the
    stop-loss. *)
Definition exit_choice (side : string) (profit_pct highest_profit : Q) : option string :=
  let stop :=
    if Qle_bool profit_pct (- stop_loss_pct cfg)
    then Some (if String.eqb side "long" then "sell" else "buy")
    else None in
  match spec_floor (classify cfg highest_profit) highest_profit with
  | Some floor => if Qle_bool profit_pct floor then Some side else stop
  | None => stop
  end.

(** What every order of the bot has in common. *)
Definition order_ok (o : Order) : Prop :=
  ord_type o = "MARKET" /\
  (0 < ord_amount o)%Q /\
  (ord_direction o = "buy" \/ ord_direction o = "sell") /\
  (ord_symbol o ∉ blacklist cfg).

(** The invariant of a symbol, by its place in or out of the blacklist. *)
Definition symbol_ok (symbol : string) (b : Bot) : Prop :=
  if decide (symbol ∈ blacklist cfg) then excluded_ok symbol b
  else tracked_ok symbol b.

End Summary.

(** ** Sample configurations and snapshots *)

(** Thresholds 2, 5 and 10, a stop-loss of 3, a low floor of 1 and
    give-back fractions of one half and one quarter. *)
Definition cfg_demo : Config :=
  {| leverage := 1; stop_loss_pct := 3; low_trail_stop_loss_pct := 1;
     trail_stop_loss_pct := 1 # 2; higher_trail_stop_loss_pct := 1 # 4;
     low_trail_profit_threshold := 2; first_trail_profit_threshold := 5;
     second_trail_profit_threshold := 10; blacklist := {["DOGEUSDT"]} |}.

(** As [cfg_demo], with the low tier starting at a profit of 0 and its floor
    at a loss of 2. *)
Definition cfg_breakeven : Config :=
  {| leverage := 1; stop_loss_pct := 3; low_trail_stop_loss_pct := - (2);
     trail_stop_loss_pct := 1 # 2; higher_trail_stop_loss_pct := 1 # 4;
     low_trail_profit_threshold := 0; first_trail_profit_threshold := 5;
     second_trail_profit_threshold := 10; blacklist := ∅ |}.

(** As [cfg_demo], with the low floor at a loss of 5, under the stop-loss
    of 3. *)
Definition cfg_wide : Config :=
  {| leverage := 1; stop_loss_pct := 3; low_trail_stop_loss_pct := - (5);
     trail_stop_loss_pct := 1 # 2; higher_trail_stop_loss_pct := 1 # 4;
     low_trail_profit_threshold := 2; first_trail_profit_threshold := 5;
     second_trail_profit_threshold := 10; blacklist := ∅ |}.

(** Thresholds 1, 2 and 10 and a first give-back fraction of [0.1], the
    double nearest to one tenth. *)
Definition cfg_tenth : Config :=
  {| leverage := 1; stop_loss_pct := 3; low_trail_stop_loss_pct := 0;
     trail_stop_loss_pct := round64 (1 # 10);
     higher_trail_stop_loss_pct := 1 # 4;
     low_trail_profit_threshold := 1; first_trail_profit_threshold := 2;
     second_trail_profit_threshold := 10; blacklist := ∅ |}.

(** An exchange on which every order goes through, and one that refuses
    them all. *)
Definition accept_all : list Event -> Order -> bool := fun _ _ => true.
Definition refuse_all : list Event -> Order -> bool := fun _ _ => false.

Definition position_of (symbol : string) (amt entry mark : Q) (side : string)
    : Position :=
  {| pos_symbol := symbol;
     pos_info := {| positionAmt := Some amt; entryPrice := Some entry;
                    markPrice := Some mark |};
     pos_side := Some side |}.

(** ** Comparisons on rationals *)

Lemma Qltb_lt (x y : Q) : Qltb x y = true <-> (x < y)%Q.
Proof.
  unfold Qltb. rewrite Qlt_alt. destruct (x ?= y)%Q; split; congruence.
Qed.

Lemma Qltb_ge (x y : Q) : Qltb x y = false <-> (y <= x)%Q.
Proof.
  rewrite <- not_true_iff_false, Qltb_lt. split.
  - apply Qnot_lt_le.
  - intros H1 H2. exact (Qlt_not_le _ _ H2 H1).
Qed.

Lemma Qle_bool_gt (x y : Q) : Qle_bool x y = false <-> (y < x)%Q.
Proof.
  rewrite <- not_true_iff_false, Qle_bool_iff. split.
  - apply Qnot_le_lt.
  - intros H1 H2. exact (Qlt_not_le _ _ H1 H2).
Qed.

(** The update of lines 160-161 is the maximum of the library. *)
Lemma peak_update_max (h p : Q) : (if Qltb h p then p else h) = Qmax h p.
Proof.
  unfold Qltb, Qmax, GenericMinMax.gmax. destruct (h ?= p)%Q; reflexivity.
Qed.

(** ** The order on tiers *)

Lemma tier_le_refl (t : Tier) : tier_le t t.
Proof. unfold tier_le. lia. Qed.

Lemma tier_le_trans (t1 t2 t3 : Tier) :
  tier_le t1 t2 -> tier_le t2 t3 -> tier_le t1 t3.
Proof. unfold tier_le. lia. Qed.

Lemma tier_none_le (t : Tier) : tier_le TierNone t.
Proof. unfold tier_le. simpl. lia. Qed.

(** ** The classifier *)

Section Classifier.

Variable cfg : Config.

Lemma classify_second (h : Q) :
  classify cfg h = SecondTrail <-> (second_trail_profit_threshold cfg <= h)%Q.
Proof.
  unfold classify. rewrite <- Qle_bool_iff.
  destruct (Qle_bool (second_trail_profit_threshold cfg) h); [tauto |].
  destruct (Qle_bool (first_trail_profit_threshold cfg) h); [split; discriminate |].
  destruct (Qle_bool (low_trail_profit_threshold cfg) h); split; discriminate.
Qed.

(** A higher peak never gets a lower tier; no order between the thresholds
    is needed for this. *)
Lemma classify_mono (h1 h2 : Q) :
  (h1 <= h2)%Q -> tier_le (classify cfg h1) (classify cfg h2).
Proof.
  intros Hle. unfold classify, tier_le.
  destruct (Qle_bool (second_trail_profit_threshold cfg) h1) eqn:E1;
    destruct (Qle_bool (second_trail_profit_threshold cfg) h2) eqn:F1;
    destruct (Qle_bool (first_trail_profit_threshold cfg) h1) eqn:E2;
    destruct (Qle_bool (first_trail_profit_threshold cfg) h2) eqn:F2;
    destruct (Qle_bool (low_trail_profit_threshold cfg) h1) eqn:E3;
    destruct (Qle_bool (low_trail_profit_threshold cfg) h2) eqn:F3;
    simpl; try lia; exfalso;
    repeat match goal with
    | H : Qle_bool _ _ = true |- _ => apply Qle_bool_iff in H
    | H : Qle_bool _ _ = false |- _ => apply Qle_bool_gt in H
    end; lra.
Qed.

(** C5.  Under thresholds with low < first < second, the classifier gives
    SecondTrail exactly from the second threshold on, FirstTrail exactly
    from the first threshold up to (excluding) the second, LowProtect exactly
    from the low threshold up to (excluding) the first, and no tier exactly
    below the low threshold; a peak equal to a threshold gets the tier that
    starts there. *)
Theorem classify_spec (h : Q) :
  (low_trail_profit_threshold cfg < first_trail_profit_threshold cfg)%Q ->
  (first_trail_profit_threshold cfg < second_trail_profit_threshold cfg)%Q ->
  (classify cfg h = SecondTrail <-> (second_trail_profit_threshold cfg <= h)%Q) /\
  (classify cfg h = FirstTrail <->
     (first_trail_profit_threshold cfg <= h)%Q /\
     (h < second_trail_profit_threshold cfg)%Q) /\
  (classify cfg h = LowProtect <->
     (low_trail_profit_threshold cfg <= h)%Q /\
     (h < first_trail_profit_threshold cfg)%Q) /\
  (classify cfg h = TierNone <-> (h < low_trail_profit_threshold cfg)%Q) /\
  classify cfg (second_trail_profit_threshold cfg) = SecondTrail /\
  classify cfg (first_trail_profit_threshold cfg) = FirstTrail /\
  classify cfg (low_trail_profit_threshold cfg) = LowProtect.
Proof.
  intros Hlf Hfs.
  assert (Hcases : forall x,
    (classify cfg x = SecondTrail /\ (second_trail_profit_threshold cfg <= x)%Q) \/
    (classify cfg x = FirstTrail /\ (first_trail_profit_threshold cfg <= x)%Q /\
       (x < second_trail_profit_threshold cfg)%Q) \/
    (classify cfg x = LowProtect /\ (low_trail_profit_threshold cfg <= x)%Q /\
       (x < first_trail_profit_threshold cfg)%Q) \/
    (classify cfg x = TierNone /\ (x < low_trail_profit_threshold cfg)%Q)).
  { intros x. unfold classify.
    destruct (Qle_bool (second_trail_profit_threshold cfg) x) eqn:E1.
    { left. apply Qle_bool_iff in E1. auto. }
    apply Qle_bool_gt in E1.
    destruct (Qle_bool (first_trail_profit_threshold cfg) x) eqn:E2.
    { right; left. apply Qle_bool_iff in E2. auto. }
    apply Qle_bool_gt in E2.
    destruct (Qle_bool (low_trail_profit_threshold cfg) x) eqn:E3.
    { right; right; left. apply Qle_bool_iff in E3. auto. }
    apply Qle_bool_gt in E3. right; right; right. auto. }
  assert (Hs := Hcases (second_trail_profit_threshold cfg)).
  assert (Hf := Hcases (first_trail_profit_threshold cfg)).
  assert (Hl := Hcases (low_trail_profit_threshold cfg)).
  specialize (Hcases h).
  split; [| split; [| split; [| split; [| split; [| split]]]]].
  1-4: split; intros Hb;
       destruct Hcases as [[E ?]|[[E [? ?]]|[[E [? ?]]|[E ?]]]];
       first [ exact E
             | rewrite E in Hb; discriminate
             | split; assumption
             | assumption
             | exfalso; destruct Hb; lra
             | exfalso; lra ].
  - destruct Hs as [[E ?]|[[E [? ?]]|[[E [? ?]]|[E ?]]]];
      first [exact E | exfalso; lra].
  - destruct Hf as [[E ?]|[[E [? ?]]|[[E [? ?]]|[E ?]]]];
      first [exact E | exfalso; lra].
  - destruct Hl as [[E ?]|[[E [? ?]]|[[E [? ?]]|[E ?]]]];
      first [exact E | exfalso; lra].
Qed.

End Classifier.

(** ** Journals *)

Lemma journaled_journaled (b : Bot) (es1 es2 : list Event) :
  journaled (journaled b es1) es2 = journaled b (es1 ++ es2).
Proof. unfold journaled; simpl. by rewrite <- app_assoc. Qed.

Lemma delta_app (b b' : Bot) (es : list Event) :
  journal b' = journal b ++ es -> delta b b' = es.
Proof. intros E. unfold delta. rewrite E. apply drop_app_length. Qed.

Lemma orders_of_app (es1 es2 : list Event) :
  orders_of (es1 ++ es2) = orders_of es1 ++ orders_of es2.
Proof.
  induction es1 as [|e es1 IH]; [reflexivity |].
  destruct e; simpl; rewrite IH; reflexivity.
Qed.

Lemma orders_for_app (symbol : string) (es1 es2 : list Event) :
  orders_for symbol (es1 ++ es2) = orders_for symbol es1 ++ orders_for symbol es2.
Proof. unfold orders_for. by rewrite orders_of_app, filter_app. Qed.

Lemma closes_app (symbol : string) (es1 es2 : list Event) :
  closes symbol (es1 ++ es2) = closes symbol es1 + closes symbol es2.
Proof. unfold closes. by rewrite orders_for_app, filter_app, length_app. Qed.

Lemma detection_notes_app (symbol : string) (es1 es2 : list Event) :
  detection_notes symbol (es1 ++ es2) =
  detection_notes symbol es1 + detection_notes symbol es2.
Proof. unfold detection_notes. by rewrite filter_app, length_app. Qed.

Lemma observed_app (symbol : string) (es1 es2 : list Event) :
  observed symbol (es1 ++ es2) =
  fold_left (observe_event symbol) es2 (observed symbol es1).
Proof. unfold observed. apply fold_left_app. Qed.

Lemma peak_of_snoc (ps : list Q) (p : Q) :
  peak_of (ps ++ [p]) = Qmax (peak_of ps) p.
Proof. unfold peak_of. by rewrite fold_left_app. Qed.

(** ** What one call of each method does *)

Section Runs.

Variable cfg : Config.
Context {fl : Rounding}.
Variable exchange : list Event -> Order -> bool.

Lemma emit_run (e : Event) (b : Bot) : emit e b = Ret tt (journaled b [e]).
Proof. reflexivity. Qed.

Lemma close_position_run (symbol : string) (amount : Q) (side : string) (b : Bot) :
  close_position exchange symbol amount side b =
  if exchange (journal b) (close_order symbol amount side)
  then Ret true (closed_state symbol amount side b)
  else Ret false (unclosed_state symbol amount side b).
Proof.
  unfold close_position, try_except, create_order, bind, get, logger_info,
    logger_error, send_feishu_notification, forget, emit, modify, ret, raise.
  destruct (exchange (journal b) (close_order symbol amount side)); simpl.
  - unfold closed_state, forgotten, journaled; simpl.
    by rewrite <- !app_assoc.
  - unfold unclosed_state, journaled; simpl. by rewrite <- !app_assoc.
Qed.

Lemma tier_exit_run (symbol : string) (position_amt : Q) (side : string)
    (profit_pct highest_profit : Q) (t : Tier) (b : Bot) :
  tier_exit cfg exchange symbol position_amt side profit_pct highest_profit t b =
  match spec_floor cfg t highest_profit with
  | None => Ret false b
  | Some floor =>
      if Qle_bool profit_pct floor
      then Ret true
             (res_state
                (close_position exchange symbol (Qabs position_amt) side
                   (journaled b
                      [LogInfo (MsgFloor floor);
                       LogInfo (trigger_msg t symbol highest_profit profit_pct)])))
      else Ret false (journaled b [LogInfo (MsgFloor floor)])
  end.
Proof.
  destruct t; simpl; try reflexivity.
  all: unfold bind, logger_info; rewrite emit_run;
    match goal with |- context [Qle_bool ?x ?y] => destruct (Qle_bool x y) end;
    [| reflexivity];
    unfold bind; rewrite emit_run, journaled_journaled; simpl;
    rewrite close_position_run;
    match goal with |- context [exchange ?j ?o] => destruct (exchange j o) end;
    reflexivity.
Qed.

Lemma stop_loss_exit_run (symbol : string) (position_amt : Q) (side : string)
    (profit_pct : Q) (b : Bot) :
  stop_loss_exit cfg exchange symbol position_amt side profit_pct b =
  if Qle_bool profit_pct (- stop_loss_pct cfg)
  then Ret tt
         (res_state
            (close_position exchange symbol (Qabs position_amt)
               (if String.eqb side "long" then "sell" else "buy")
               (journaled b [LogInfo (MsgStopLoss symbol profit_pct)])))
  else Ret tt b.
Proof.
  unfold stop_loss_exit.
  destruct (Qle_bool profit_pct (- stop_loss_pct cfg)); [| reflexivity].
  unfold bind, logger_info. rewrite emit_run, close_position_run.
  match goal with |- context [exchange ?j ?o] => destruct (exchange j o) end;
    reflexivity.
Qed.

Lemma evaluate_run (symbol : string) (position_amt : Q) (side : string)
    (entry_price current_price profit_pct : Q) (b : Bot) :
  evaluate cfg exchange symbol position_amt side entry_price current_price
    profit_pct b =
  let b1 := observed_state cfg symbol position_amt side entry_price
              current_price profit_pct b in
  let highest_profit := new_peak b symbol profit_pct in
  match tier_exit cfg exchange symbol position_amt side profit_pct
          highest_profit (classify cfg highest_profit) b1 with
  | Ret true b2 => Ret tt b2
  | Ret false b2 => stop_loss_exit cfg exchange symbol position_amt side profit_pct b2
  | Raise e b2 => Raise e b2
  end.
Proof.
  unfold evaluate, track_peak, observed_state, new_peak, bind, get, set_highest,
    set_tier, logger_info, emit, modify, ret; simpl.
  destruct (Qltb (default 0%Q (highest_profits b !! symbol)) profit_pct); simpl.
  all: match goal with |- context [tier_exit _ _ _ _ _ _ _ _ ?x] =>
         destruct (tier_exit cfg exchange symbol position_amt side profit_pct
                     _ _ x) as [[] ?|? ?] end; reflexivity.
Qed.

End Runs.

(** ** Every run is a sequence of steps *)

Section Steps.

Variable cfg : Config.
Context {fl : Rounding}.
Variable exchange : list Event -> Order -> bool.

Local Abbreviation steps := (rtc (step cfg)).

Lemma steps_quiet (b : Bot) (es : list Event) :
  forallb quiet es = true -> steps b (journaled b es).
Proof.
  revert b. induction es as [|e es IH]; intros b Hq.
  - destruct b; unfold journaled; simpl. rewrite app_nil_r. apply rtc_refl.
  - simpl in Hq. apply andb_true_iff in Hq as [He Hes].
    eapply rtc_l; [apply step_quiet, He |].
    specialize (IH (journaled b [e]) Hes).
    by rewrite journaled_journaled in IH.
Qed.

Lemma steps_close_position (symbol : string) (amount : Q) (side : string) (b : Bot) :
  symbol ∉ blacklist cfg ->
  steps b (res_state (close_position exchange symbol amount side b)).
Proof.
  intros Hs. rewrite close_position_run.
  destruct (exchange (journal b) (close_order symbol amount side)); simpl;
    apply rtc_once; by constructor.
Qed.

Lemma steps_tier_exit (symbol : string) (position_amt : Q) (side : string)
    (profit_pct highest_profit : Q) (t : Tier) (b : Bot) :
  symbol ∉ blacklist cfg ->
  steps b (res_state (tier_exit cfg exchange symbol position_amt side profit_pct
                        highest_profit t b)).
Proof.
  intros Hs. rewrite tier_exit_run.
  destruct (spec_floor cfg t highest_profit) as [floor|]; [| apply rtc_refl].
  destruct (Qle_bool profit_pct floor); simpl.
  - etrans; [| by apply steps_close_position].
    apply steps_quiet. by destruct t.
  - by apply steps_quiet.
Qed.

Lemma steps_stop_loss_exit (symbol : string) (position_amt : Q) (side : string)
    (profit_pct : Q) (b : Bot) :
  symbol ∉ blacklist cfg ->
  steps b (res_state (stop_loss_exit cfg exchange symbol position_amt side
                        profit_pct b)).
Proof.
  intros Hs. rewrite stop_loss_exit_run.
  destruct (Qle_bool profit_pct (- stop_loss_pct cfg)); simpl; [| apply rtc_refl].
  etrans; [| by apply steps_close_position]. by apply steps_quiet.
Qed.

Lemma steps_evaluate (symbol : string) (position_amt : Q) (side : string)
    (entry_price current_price profit_pct : Q) (b : Bot) :
  symbol ∉ blacklist cfg -> symbol ∈ detected_positions b ->
  steps b (res_state (evaluate cfg exchange symbol position_amt side entry_price
                        current_price profit_pct b)).
Proof.
  intros Hs Hd. rewrite evaluate_run. cbv zeta.
  eapply rtc_l; [by apply step_observed |].
  pose proof (steps_tier_exit symbol position_amt side profit_pct
                (new_peak b symbol profit_pct)
                (classify cfg (new_peak b symbol profit_pct))
                (observed_state cfg symbol position_amt side entry_price
                   current_price profit_pct b) Hs) as Ht.
  destruct (tier_exit cfg exchange symbol position_amt side profit_pct _ _ _)
    as [[] b2|e b2]; simpl in *; try exact Ht.
  etrans; [exact Ht |]. by apply steps_stop_loss_exit.
Qed.

Lemma first_sight_run (symbol : string) (position_amt entry_price : Q)
    (side : string) (b : Bot) :
  first_sight symbol position_amt entry_price side b =
  Ret tt (if decide (symbol ∉ detected_positions b)
          then detected_state symbol position_amt entry_price side b else b).
Proof.
  unfold first_sight, bind, get. destruct (decide _); [| reflexivity].
  unfold detected_state, add_detected, set_highest, set_tier, logger_info,
    send_feishu_notification, emit, modify; simpl. by rewrite <- app_assoc.
Qed.

Lemma skip_blacklisted_run (symbol : string) (b : Bot) :
  skip_blacklisted symbol b =
  Ret tt (if decide (symbol ∉ detected_positions b)
          then blacklisted_state symbol b else b).
Proof.
  unfold skip_blacklisted, bind, get. destruct (decide _); reflexivity.
Qed.

Lemma first_sight_detected (symbol : string) (position_amt entry_price : Q)
    (side : string) (b : Bot) :
  symbol ∈ detected_positions
    (if decide (symbol ∉ detected_positions b)
     then detected_state symbol position_amt entry_price side b else b).
Proof.
  destruct (decide _) as [Hn|Hn]; simpl.
  - set_solver.
  - by apply dec_stable.
Qed.

(** The loop body, with its helpers run. *)
Lemma monitor_position_run (position : Position) (b : Bot) :
  monitor_position cfg exchange position b =
  let symbol := pos_symbol position in
  let position_amt := default 0%Q (positionAmt (pos_info position)) in
  let entry_price := default 0%Q (entryPrice (pos_info position)) in
  let current_price := default 0%Q (markPrice (pos_info position)) in
  match pos_side position with
  | None => Ret tt (journaled b [LogWarning (MsgSideNone symbol)])
  | Some side =>
      if decide (symbol ∈ blacklist cfg) then
        Ret tt (if decide (symbol ∉ detected_positions b)
                then blacklisted_state symbol b else b)
      else
        let b1 := if decide (symbol ∉ detected_positions b)
                  then detected_state symbol position_amt entry_price
                         (lower side) b
                  else b in
        if String.eqb (lower side) "long" then
          if Qeq_bool entry_price 0 then Raise ZeroDivisionError b1
          else evaluate cfg exchange symbol position_amt (lower side)
                 entry_price current_price
                 (fmul (fquot (fsub current_price entry_price) entry_price) 100)
                 b1
        else if String.eqb (lower side) "short" then
          if Qeq_bool entry_price 0 then Raise ZeroDivisionError b1
          else evaluate cfg exchange symbol position_amt (lower side)
                 entry_price current_price
                 (fmul (fquot (fsub entry_price current_price) entry_price) 100)
                 b1
        else Ret tt b1
  end.
Proof.
  unfold monitor_position. cbv zeta.
  destruct (pos_side position) as [side|]; [| reflexivity].
  destruct (decide (pos_symbol position ∈ blacklist cfg)).
  { apply skip_blacklisted_run. }
  unfold bind at 1. rewrite first_sight_run.
  destruct (String.eqb (lower side) "long").
  { unfold bind, float_div. by destruct (Qeq_bool _ 0). }
  destruct (String.eqb (lower side) "short"); [| reflexivity].
  unfold bind, float_div. by destruct (Qeq_bool _ 0).
Qed.

Lemma steps_monitor_position (position : Position) (b : Bot) :
  steps b (res_state (monitor_position cfg exchange position b)).
Proof.
  unfold monitor_position.
  destruct (pos_side position) as [side|].
  2: { apply rtc_once. by apply step_quiet. }
  destruct (decide (pos_symbol position ∈ blacklist cfg)) as [Hb|Hb].
  { rewrite skip_blacklisted_run. simpl.
    destruct (decide _); [| apply rtc_refl].
    apply rtc_once. by constructor. }
  unfold bind at 1. rewrite first_sight_run.
  set (b1 := if decide (pos_symbol position ∉ detected_positions b) then _ else b).
  assert (steps b b1) as Hb1.
  { subst b1. destruct (decide _); [| apply rtc_refl].
    apply rtc_once. by constructor. }
  assert (pos_symbol position ∈ detected_positions b1) as Hd
    by apply first_sight_detected.
  etrans; [exact Hb1 |]. clearbody b1.
  destruct (String.eqb (lower side) "long").
  { unfold bind, float_div.
    destruct (Qeq_bool _ 0); simpl; [apply rtc_refl |].
    by apply steps_evaluate. }
  destruct (String.eqb (lower side) "short"); [| apply rtc_refl].
  unfold bind, float_div.
  destruct (Qeq_bool _ 0); simpl; [apply rtc_refl |].
  by apply steps_evaluate.
Qed.

Lemma bind_state {A B} (m : M A) (k : A -> M B) (b : Bot) :
  res_state (bind m k b) =
  match m b with
  | Ret a b' => res_state (k a b')
  | Raise _ b' => b'
  end.
Proof. unfold bind. by destruct (m b). Qed.

Lemma steps_for_each (positions : list Position) (b : Bot) :
  steps b (res_state (for_each cfg exchange positions b)).
Proof.
  revert b. induction positions as [|position rest IH]; intros b; simpl.
  - apply rtc_refl.
  - rewrite bind_state.
    pose proof (steps_monitor_position position b) as H1.
    destruct (monitor_position cfg exchange position b) as [[] b'|e b'];
      simpl in H1; [| exact H1].
    etrans; [exact H1 | apply IH].
Qed.

Lemma steps_monitor_positions (response : option (list Position)) (b : Bot) :
  steps b (res_state (monitor_positions cfg exchange response b)).
Proof.
  unfold monitor_positions. rewrite bind_state.
  destruct response as [positions|]; simpl.
  - apply steps_for_each.
  - by apply (steps_quiet b [LogError MsgFetchError]).
Qed.

Lemma steps_main_loop (ticks : list (option (list Position))) (b : Bot) :
  steps b (res_state (main_loop cfg exchange ticks b)).
Proof.
  revert b. induction ticks as [|response rest IH]; intros b; simpl.
  - apply rtc_refl.
  - rewrite bind_state.
    pose proof (steps_monitor_positions response b) as H1.
    destruct (monitor_positions cfg exchange response b) as [[] b'|e b'];
      simpl in H1; [| exact H1].
    etrans; [exact H1 | apply IH].
Qed.

Lemma steps_schedule_task (ticks : list (option (list Position))) (b : Bot) :
  steps b (res_state (schedule_task cfg exchange ticks b)).
Proof.
  unfold schedule_task. rewrite bind_state. unfold logger_info.
  rewrite emit_run. unfold try_except.
  etrans; [by apply (steps_quiet b [LogInfo MsgLoopStart]) |].
  pose proof (steps_main_loop ticks (journaled b [LogInfo MsgLoopStart])) as H1.
  destruct (main_loop cfg exchange ticks _) as [[] b'|e b']; simpl in *;
    [exact H1 |].
  etrans; [exact H1 |].
  pose proof (steps_quiet b' [LogError (MsgAbnormalExit e);
                               Notify (MsgAbnormalExit e)] eq_refl) as H2.
  rewrite <- app_assoc. exact H2.
Qed.

End Steps.

(** ** Invariants of the steps *)

Section Invariants.

Variable cfg : Config.
Context {fl : Rounding}.

Local Abbreviation steps := (rtc (step cfg)).

Lemma observe_quiet (symbol : string) (acc : list Q) (e : Event) :
  quiet e = true -> observe_event symbol acc e = acc.
Proof. destruct e as [m|m|m|m|o r]; try destruct m; simpl; congruence. Qed.

Lemma detection_note_quiet (symbol : string) (e : Event) :
  quiet e = true -> is_detection_note symbol e = false.
Proof. destruct e as [m|m|m|m|o r]; try destruct m; simpl; congruence. Qed.

Lemma orders_for_quiet (symbol : string) (e : Event) :
  quiet e = true -> orders_for symbol [e] = [].
Proof.
  destruct e as [m|m|m|m|o r]; try destruct m; simpl; intros Hq;
    first [discriminate | reflexivity].
Qed.

Lemma detection_notes_quiet (symbol : string) (e : Event) :
  quiet e = true -> detection_notes symbol [e] = 0.
Proof.
  intros Hq. unfold detection_notes.
  rewrite filter_cons_False by (by rewrite detection_note_quiet). done.
Qed.

Lemma eqb_ne (s1 s2 : string) : s1 <> s2 -> String.eqb s1 s2 = false.
Proof. apply String.eqb_neq. Qed.

Lemma new_peak_max (b : Bot) (symbol : string) (h p : Q) :
  highest_profits b !! symbol = Some h -> new_peak b symbol p = Qmax h p.
Proof. intros E. unfold new_peak. rewrite E; simpl. apply peak_update_max. Qed.

Lemma tracked_ok_step (symbol : string) (b b' : Bot) :
  symbol ∉ blacklist cfg ->
  tracked_ok cfg symbol b -> step cfg b b' -> tracked_ok cfg symbol b'.
Proof.
  intros Hs Hok Hstep. unfold tracked_ok in *.
  destruct Hstep as [b e Hq | b s Hb Hd | b s amt ep side Hb Hd
                    | b s amt side ep cp p Hb Hd | b s amt side Hb
                    | b s amt side Hb]; simpl.
  - rewrite observed_app; simpl. by rewrite observe_quiet.
  - rewrite observed_app; simpl.
    assert (s <> symbol) as Hne by congruence.
    destruct (highest_profits b !! symbol) as [h|].
    + destruct Hok as (Hin & Hpk & Htr). split; [set_unfold; intuition congruence | done].
    + destruct Hok as (Hn & Htr). split; [set_unfold; intuition congruence | done].
  - rewrite observed_app; simpl.
    destruct (decide (s = symbol)) as [->|Hne].
    + rewrite !lookup_insert_eq, String.eqb_refl; simpl.
      split; [set_unfold; intuition congruence | done].
    + rewrite !lookup_insert_ne, (eqb_ne s symbol) by done.
      destruct (highest_profits b !! symbol) as [h|].
      * destruct Hok as (Hin & Hpk & Htr). split; [set_unfold; intuition congruence | done].
      * destruct Hok as (Hn & Htr). split; [set_unfold; intuition congruence | done].
  - rewrite observed_app; simpl.
    destruct (decide (s = symbol)) as [->|Hne].
    + rewrite String.eqb_refl, lookup_insert_eq.
      destruct (highest_profits b !! symbol) as [h|] eqn:Eh;
        [| by destruct Hok].
      destruct Hok as (Hin & Hpeak & Htier).
      rewrite (new_peak_max b symbol h p Eh). simpl.
      assert (forall q, (if Qltb h p
                         then <[symbol:=p]> (highest_profits b)
                         else highest_profits b) !! symbol = Some q ->
                        q = Qmax h p) as Hq.
      { intros q. rewrite <- peak_update_max.
        destruct (Qltb h p); [rewrite lookup_insert_eq | rewrite Eh]; congruence. }
      destruct ((if Qltb h p then <[symbol:=p]> (highest_profits b)
                 else highest_profits b) !! symbol) as [q|] eqn:Eq.
      * rewrite (Hq q eq_refl). split; [done |].
        rewrite peak_of_snoc, <- Hpeak. split; [done |].
        by destruct (observed symbol (journal b)).
      * exfalso. destruct (Qltb h p);
          [rewrite lookup_insert_eq in Eq | rewrite Eh in Eq]; discriminate.
    + rewrite (eqb_ne s symbol), lookup_insert_ne by done.
      assert ((if Qltb (default 0%Q (highest_profits b !! s)) p
               then <[s:=p]> (highest_profits b)
               else highest_profits b) !! symbol = highest_profits b !! symbol)
        as -> by (destruct (Qltb _ p); [by rewrite lookup_insert_ne | done]).
      exact Hok.
  - rewrite observed_app; simpl.
    destruct (decide (s = symbol)) as [->|Hne].
    + rewrite !lookup_delete_eq. split; [set_unfold; intuition congruence | done].
    + rewrite !lookup_delete_ne by done.
      destruct (highest_profits b !! symbol) as [h|].
      * destruct Hok as (Hin & Hpk & Htr). split; [set_unfold; intuition congruence | done].
      * destruct Hok as (Hn & Htr). split; [set_unfold; intuition congruence | done].
  - rewrite observed_app; simpl. exact Hok.
Qed.

Lemma detection_notes_cons (symbol : string) (e : Event) (es : list Event) :
  detection_notes symbol (e :: es) =
  (if is_detection_note symbol e then 1 else 0) + detection_notes symbol es.
Proof.
  unfold detection_notes. destruct (is_detection_note symbol e) eqn:E.
  - by rewrite filter_cons_True.
  - by rewrite filter_cons_False by congruence.
Qed.

Lemma orders_for_cons (symbol : string) (e : Event) (es : list Event) :
  orders_for symbol (e :: es) =
  match e with
  | CreateOrder o r =>
      if decide (ord_symbol o = symbol)
      then (o, r) :: orders_for symbol es else orders_for symbol es
  | _ => orders_for symbol es
  end.
Proof.
  unfold orders_for. destruct e; reflexivity.
Qed.

Lemma excluded_ok_step (symbol : string) (b b' : Bot) :
  symbol ∈ blacklist cfg ->
  excluded_ok symbol b -> step cfg b b' -> excluded_ok symbol b'.
Proof.
  intros Hs (Hh & Ht & Ho & Hn & Hd0) Hstep. unfold excluded_ok.
  destruct Hstep as [b e Hq | b s Hb Hd | b s amt ep side Hb Hd
                    | b s amt side ep cp p Hb Hd | b s amt side Hb
                    | b s amt side Hb]; simpl;
    rewrite orders_for_app, detection_notes_app, Ho.
  - rewrite orders_for_quiet, detection_notes_quiet by done.
    rewrite Nat.add_0_r. done.
  - rewrite detection_notes_cons; simpl.
    destruct (decide (s = symbol)) as [->|Hne].
    + rewrite String.eqb_refl, (Hd0 Hd). simpl.
      repeat split; try done. intros Hnot. exfalso. apply Hnot.
      apply elem_of_union_l. by apply elem_of_singleton.
    + rewrite eqb_ne by done. simpl. rewrite Nat.add_0_r.
      repeat split; try done. intros Hnot. apply Hd0.
      intros Hin. apply Hnot. by apply elem_of_union_r.
  - assert (s <> symbol) as Hne by congruence.
    rewrite !detection_notes_cons; simpl. rewrite eqb_ne by done. simpl.
    rewrite !lookup_insert_ne, Nat.add_0_r by done.
    repeat split; try done. intros Hnot. apply Hd0.
    intros Hin. apply Hnot. by apply elem_of_union_r.
  - assert (s <> symbol) as Hne by congruence.
    rewrite !detection_notes_cons; simpl.
    rewrite !lookup_insert_ne, Nat.add_0_r by done.
    repeat split; try done.
    destruct (Qltb _ p); [by rewrite lookup_insert_ne | done].
  - assert (s <> symbol) as Hne by congruence.
    rewrite !detection_notes_cons, !orders_for_cons; simpl.
    rewrite decide_False by done.
    rewrite !lookup_delete_ne, Nat.add_0_r by done.
    repeat split; try done. intros Hnot. apply Hd0.
    intros Hin. apply Hnot. apply elem_of_difference. split; [done |].
    intros Hx. apply elem_of_singleton in Hx. congruence.
  - assert (s <> symbol) as Hne by congruence.
    rewrite !detection_notes_cons, !orders_for_cons; simpl.
    rewrite decide_False by done.
    rewrite Nat.add_0_r. done.
Qed.

Lemma tracked_ok_init (symbol : string) : tracked_ok cfg symbol init_bot.
Proof. unfold tracked_ok; simpl. rewrite !lookup_empty. set_solver. Qed.

Lemma excluded_ok_init (symbol : string) : excluded_ok symbol init_bot.
Proof.
  unfold excluded_ok; simpl. rewrite !lookup_empty.
  repeat split; try done. unfold detection_notes; simpl. lia.
Qed.

Lemma tracked_ok_steps (symbol : string) (b b' : Bot) :
  symbol ∉ blacklist cfg ->
  tracked_ok cfg symbol b -> steps b b' -> tracked_ok cfg symbol b'.
Proof.
  intros Hs Hok Hsteps. induction Hsteps as [|b1 b2 b3 H12 _ IH]; [done |].
  apply IH. by apply (tracked_ok_step symbol b1).
Qed.

Lemma excluded_ok_steps (symbol : string) (b b' : Bot) :
  symbol ∈ blacklist cfg ->
  excluded_ok symbol b -> steps b b' -> excluded_ok symbol b'.
Proof.
  intros Hs Hok Hsteps. induction Hsteps as [|b1 b2 b3 H12 _ IH]; [done |].
  apply IH. by apply (excluded_ok_step symbol b1).
Qed.

Lemma symbol_ok_init (symbol : string) : symbol_ok cfg symbol init_bot.
Proof.
  unfold symbol_ok. destruct (decide _).
  - apply excluded_ok_init.
  - apply tracked_ok_init.
Qed.

Lemma symbol_ok_steps (symbol : string) (b b' : Bot) :
  symbol_ok cfg symbol b -> steps b b' -> symbol_ok cfg symbol b'.
Proof.
  unfold symbol_ok. destruct (decide _); intros Hok Hsteps.
  - by apply (excluded_ok_steps symbol b).
  - by apply (tracked_ok_steps symbol b).
Qed.

(** The largest of [0] and a sequence: at least [0], at least every element,
    and either [0] or one of the elements. *)
Lemma peak_of_spec (ps : list Q) :
  (0 <= peak_of ps)%Q /\
  (forall p, p ∈ ps -> (p <= peak_of ps)%Q) /\
  (peak_of ps = 0%Q \/ peak_of ps ∈ ps).
Proof.
  induction ps as [|p ps (H0 & Hub & Hin)] using rev_ind.
  - split; [apply Qle_refl |]. split; [| by left].
    intros p Hp. by apply elem_of_nil in Hp.
  - rewrite peak_of_snoc, <- peak_update_max.
    destruct (Qltb (peak_of ps) p) eqn:E.
    + apply Qltb_lt in E. split; [lra |]. split.
      * intros q Hq. apply elem_of_app in Hq as [Hq|Hq].
        -- specialize (Hub q Hq). lra.
        -- apply list_elem_of_singleton in Hq as ->. apply Qle_refl.
      * right. apply elem_of_app. right. by apply list_elem_of_singleton.
    + apply Qltb_ge in E. split; [done |]. split.
      * intros q Hq. apply elem_of_app in Hq as [Hq|Hq].
        -- by apply Hub.
        -- by apply list_elem_of_singleton in Hq as ->.
      * destruct Hin as [Hz|Hin]; [by left | right].
        apply elem_of_app. by left.
Qed.

(** One step does not undo a successful close, and without a new one it
    keeps the symbol tracked, with a tier and a peak at least as high. *)
Lemma tier_step (symbol : string) (b b' : Bot) :
  symbol_ok cfg symbol b -> step cfg b b' ->
  closes symbol (journal b) <= closes symbol (journal b') /\
  (closes symbol (journal b') = closes symbol (journal b) ->
   (forall t, current_tiers b !! symbol = Some t ->
      exists t', current_tiers b' !! symbol = Some t' /\ tier_le t t') /\
   (forall h, highest_profits b !! symbol = Some h ->
      exists h', highest_profits b' !! symbol = Some h' /\ (h <= h')%Q)).
Proof.
  intros Hok Hstep. unfold symbol_ok in Hok.
  destruct (decide (symbol ∈ blacklist cfg)) as [Hbl|Hbl].
  { pose proof (excluded_ok_step symbol b b' Hbl Hok Hstep) as Hok'.
    destruct Hok as (Hh & Ht & Ho & _), Hok' as (_ & Ht' & Ho' & _).
    unfold closes. rewrite Ho, Ho'. split; [done |].
    intros _. split; intros x Ex; congruence. }
  assert (forall (m1 : gmap string Tier) (m2 : gmap string Q),
    m1 !! symbol = current_tiers b !! symbol ->
    m2 !! symbol = highest_profits b !! symbol ->
    (forall t, current_tiers b !! symbol = Some t ->
       exists t', m1 !! symbol = Some t' /\ tier_le t t') /\
    (forall h, highest_profits b !! symbol = Some h ->
       exists h', m2 !! symbol = Some h' /\ (h <= h')%Q)) as Hsame.
  { intros m1 m2 -> ->. split; intros x Ex; exists x;
      (split; [done | first [apply tier_le_refl | apply Qle_refl]]). }
  destruct Hstep as [b e Hq | b s Hb Hd | b s amt ep side Hb Hd
                    | b s amt side ep cp p Hb Hd | b s amt side Hb
                    | b s amt side Hb]; simpl; rewrite closes_app.
  - split; [lia |]. intros _. by apply Hsame.
  - split; [lia |]. intros _. by apply Hsame.
  - split; [lia |]. intros _.
    destruct (decide (s = symbol)) as [->|Hne].
    + unfold tracked_ok in Hok.
      destruct (highest_profits b !! symbol) as [h|] eqn:Eh;
        [by destruct Hok |].
      destruct Hok as (_ & Et). split; intros x Ex; congruence.
    + apply Hsame; by rewrite lookup_insert_ne.
  - split; [lia |]. intros _.
    destruct (decide (s = symbol)) as [->|Hne].
    + unfold tracked_ok in Hok.
      destruct (highest_profits b !! symbol) as [h|] eqn:Eh.
      2: { destruct Hok as (Hn & Et). contradiction. }
      destruct Hok as (_ & _ & Et').
      rewrite lookup_insert_eq, (new_peak_max b symbol h p Eh). simpl. split.
      * intros t Et. eexists. split; [done |].
        rewrite Et in Et'. injection Et' as ->.
        apply (tier_le_trans _ (classify cfg h)).
        -- destruct (observed symbol (journal b));
             [apply tier_none_le | apply tier_le_refl].
        -- apply classify_mono. apply Q.le_max_l.
      * intros h0 [= <-]. exists (Qmax h p). split; [| apply Q.le_max_l].
        rewrite <- peak_update_max.
        destruct (Qltb h p); [by rewrite lookup_insert_eq | done].
    + apply Hsame; [by rewrite lookup_insert_ne |].
      destruct (Qltb _ p); [by rewrite lookup_insert_ne | done].
  - split; [lia |].
    destruct (decide (s = symbol)) as [->|Hne].
    + intros Heq. exfalso. revert Heq. unfold closes.
      rewrite !orders_for_cons; simpl. rewrite decide_True by done.
      rewrite filter_cons_True by done. simpl. lia.
    + intros _. apply Hsame; by rewrite lookup_delete_ne.
  - split; [lia |]. intros _. by apply Hsame.
Qed.

Lemma tier_steps (symbol : string) (b b' : Bot) :
  symbol_ok cfg symbol b -> steps b b' ->
  closes symbol (journal b) <= closes symbol (journal b') /\
  (closes symbol (journal b') = closes symbol (journal b) ->
   (forall t, current_tiers b !! symbol = Some t ->
      exists t', current_tiers b' !! symbol = Some t' /\ tier_le t t') /\
   (forall h, highest_profits b !! symbol = Some h ->
      exists h', highest_profits b' !! symbol = Some h' /\ (h <= h')%Q)).
Proof.
  intros Hok Hsteps. induction Hsteps as [b|b1 b2 b3 H12 H23 IH].
  - split; [done |]. intros _. split; intros x Ex; exists x;
      (split; [done | first [apply tier_le_refl | apply Qle_refl]]).
  - destruct (tier_step symbol b1 b2 Hok H12) as (Hle1 & Hmono1).
    destruct IH as (Hle2 & Hmono2).
    { apply (symbol_ok_steps symbol b1); [done | by apply rtc_once]. }
    split; [lia |]. intros Heq.
    destruct (Hmono1 ltac:(lia)) as (Ht1 & Hh1).
    destruct (Hmono2 ltac:(lia)) as (Ht2 & Hh2). split.
    + intros t Et. destruct (Ht1 t Et) as (t2 & Et2 & Hle12).
      destruct (Ht2 t2 Et2) as (t3 & Et3 & Hle23).
      exists t3. split; [done |]. by apply (tier_le_trans _ t2).
    + intros h Eh. destruct (Hh1 h Eh) as (h2 & Eh2 & Hle12).
      destruct (Hh2 h2 Eh2) as (h3 & Eh3 & Hle23).
      exists h3. split; [done |]. by apply (Qle_trans _ h2).
Qed.

End Invariants.

(** ** The stored peak and tier over a whole run *)

Section RunProperties.

Variable cfg : Config.
Context {fl : Rounding}.
Variable exchange : list Event -> Order -> bool.

Lemma schedule_task_ok (ticks : list (option (list Position))) (symbol : string) :
  symbol_ok cfg symbol (res_state (schedule_task cfg exchange ticks init_bot)).
Proof.
  apply (symbol_ok_steps cfg symbol init_bot).
  - apply symbol_ok_init.
  - apply steps_schedule_task.
Qed.

Lemma main_loop_ok (ticks : list (option (list Position))) (symbol : string) :
  symbol_ok cfg symbol (res_state (main_loop cfg exchange ticks init_bot)).
Proof.
  apply (symbol_ok_steps cfg symbol init_bot).
  - apply symbol_ok_init.
  - apply steps_main_loop.
Qed.

Lemma main_loop_app (ticks1 ticks2 : list (option (list Position))) (b : Bot) :
  res_state (main_loop cfg exchange (ticks1 ++ ticks2) b) =
  match main_loop cfg exchange ticks1 b with
  | Ret _ b1 => res_state (main_loop cfg exchange ticks2 b1)
  | Raise _ b1 => b1
  end.
Proof.
  revert b. induction ticks1 as [|response rest IH]; intros b; simpl.
  - reflexivity.
  - rewrite bind_state. unfold bind.
    destruct (monitor_positions cfg exchange response b) as [[] b'|e b'];
      [apply IH | reflexivity].
Qed.

Lemma fold_max_proper (ps : list Q) (x y : Q) :
  (x == y)%Q -> (fold_left Qmax ps x == fold_left Qmax ps y)%Q.
Proof.
  revert x y. induction ps as [|p ps IH]; intros x y Hxy; simpl; [done |].
  apply IH. by rewrite Hxy.
Qed.

Lemma fold_max_shift (ps : list Q) (a x : Q) :
  (fold_left Qmax ps (Qmax a x) == Qmax a (fold_left Qmax ps x))%Q.
Proof.
  revert x. induction ps as [|p ps IH]; intros x; simpl; [reflexivity |].
  rewrite <- IH. apply fold_max_proper. symmetry. apply Q.max_assoc.
Qed.

(** The largest of [0] and a sequence is the larger of [0] and the maximum
    of the sequence. *)
Lemma peak_of_seq_max (ps : list Q) (m : Q) :
  seq_max ps = Some m -> (peak_of ps == Qmax 0 m)%Q.
Proof.
  destruct ps as [|p ps]; simpl; [discriminate |].
  intros [= <-]. unfold peak_of; simpl. apply fold_max_shift.
Qed.

(** What is stored for a symbol at the end of a run. *)
Lemma stored_state (ticks : list (option (list Position)))
    (symbol : string) (h : Q) :
  let b := res_state (schedule_task cfg exchange ticks init_bot) in
  let seen := observed symbol (journal b) in
  highest_profits b !! symbol = Some h ->
  h = peak_of seen /\
  current_tiers b !! symbol =
    Some (match seen with [] => TierNone | _ :: _ => classify cfg h end).
Proof.
  intros b seen Eh.
  pose proof (schedule_task_ok ticks symbol) as Hok. fold b in Hok.
  unfold symbol_ok in Hok. destruct (decide (symbol ∈ blacklist cfg)).
  { destruct Hok as (Hnone & _). congruence. }
  unfold tracked_ok in Hok. rewrite Eh in Hok. fold seen in Hok.
  by destruct Hok as (_ & Hpeak & Htier).
Qed.

Lemma classify_zero_none :
  (0 < low_trail_profit_threshold cfg)%Q ->
  (0 < first_trail_profit_threshold cfg)%Q ->
  (0 < second_trail_profit_threshold cfg)%Q ->
  classify cfg 0 = TierNone.
Proof.
  intros Hl Hf Hs. unfold classify.
  apply Qle_bool_gt in Hl, Hf, Hs. by rewrite Hs, Hf, Hl.
Qed.

(** C1, as the code has it.  After any run of the bot from its start, the
    peak stored for a symbol is the largest of 0 and the profit percentages
    observed for the symbol since its last detection: it is at least 0, at
    least every observed profit, and either 0 or one of the observed
    profits; it is the larger of 0 and the maximum observed.  Once a profit
    has been observed, the stored tier is the classification of the stored
    peak. *)
Theorem peak_is_max_with_zero (ticks : list (option (list Position)))
    (symbol : string) (h : Q) :
  let b := res_state (schedule_task cfg exchange ticks init_bot) in
  let seen := observed symbol (journal b) in
  highest_profits b !! symbol = Some h ->
  h = peak_of seen /\
  (0 <= h)%Q /\
  (forall p, p ∈ seen -> (p <= h)%Q) /\
  (h = 0%Q \/ h ∈ seen) /\
  (forall m, seq_max seen = Some m -> (h == Qmax 0 m)%Q) /\
  (seen <> [] -> current_tiers b !! symbol = Some (classify cfg h)).
Proof.
  intros b seen Eh.
  destruct (stored_state ticks symbol h Eh) as (Hpeak & Htier).
  fold b seen in Hpeak, Htier.
  destruct (peak_of_spec seen) as (H0 & Hub & Hin).
  rewrite <- Hpeak in H0, Hub, Hin.
  repeat split; try done.
  - intros m Hm. rewrite Hpeak. by apply peak_of_seq_max.
  - intros Hne. rewrite Htier. by destruct seen.
Qed.

(** C10, as the code has it.  After any run of the bot from its start, the
    peak stored for a symbol is never negative.  If every profit observed
    for the symbol since its last detection is negative, the stored peak is
    0, and the stored tier is none when the three profit thresholds are
    positive. *)
Theorem peak_never_negative (ticks : list (option (list Position)))
    (symbol : string) (h : Q) :
  let b := res_state (schedule_task cfg exchange ticks init_bot) in
  let seen := observed symbol (journal b) in
  highest_profits b !! symbol = Some h ->
  (0 <= h)%Q /\
  ((forall p, p ∈ seen -> (p < 0)%Q) ->
   h = 0%Q /\
   ((0 < low_trail_profit_threshold cfg)%Q ->
    (0 < first_trail_profit_threshold cfg)%Q ->
    (0 < second_trail_profit_threshold cfg)%Q ->
    current_tiers b !! symbol = Some TierNone)).
Proof.
  intros b seen Eh.
  destruct (stored_state ticks symbol h Eh) as (Hpeak & Htier).
  fold b seen in Hpeak, Htier.
  destruct (peak_of_spec seen) as (H0 & Hub & Hin).
  rewrite <- Hpeak in H0, Hub, Hin.
  split; [done |]. intros Hneg.
  assert (h = 0%Q) as Hz.
  { destruct Hin as [Hz|Hin]; [done |]. specialize (Hneg h Hin). lra. }
  split; [done |]. intros Hl Hf Hs. rewrite Htier, Hz.
  rewrite classify_zero_none by done. by destruct seen.
Qed.

(** C8.  For a symbol of the blacklist, after any run of the bot from its
    start: no order was ever sent for it, no peak and no tier is stored for
    it, and at most one notification of its detection was sent. *)
Theorem blacklisted_never_traded (ticks : list (option (list Position)))
    (symbol : string) :
  symbol ∈ blacklist cfg ->
  let b := res_state (schedule_task cfg exchange ticks init_bot) in
  orders_for symbol (journal b) = [] /\
  highest_profits b !! symbol = None /\
  current_tiers b !! symbol = None /\
  detection_notes symbol (journal b) <= 1.
Proof.
  intros Hbl b.
  pose proof (schedule_task_ok ticks symbol) as Hok. fold b in Hok.
  unfold symbol_ok in Hok. rewrite decide_True in Hok by done.
  by destruct Hok as (Hh & Ht & Ho & Hn & _).
Qed.

(** C9.  Take the state of the bot after some cycles and its state after
    further cycles, with no order for the symbol gone through in between.
    A tier stored for the symbol at the first moment is still stored at the
    second, at least as high in the order none, low protection, first trail,
    second trail; so is its peak, no lower; and the classifier never gives a
    lower tier to a higher peak. *)
Theorem tier_never_decreases (ticks1 ticks2 : list (option (list Position)))
    (symbol : string) :
  let b1 := res_state (main_loop cfg exchange ticks1 init_bot) in
  let b2 := res_state (main_loop cfg exchange (ticks1 ++ ticks2) init_bot) in
  closes symbol (journal b2) = closes symbol (journal b1) ->
  (forall t1, current_tiers b1 !! symbol = Some t1 ->
     exists t2, current_tiers b2 !! symbol = Some t2 /\ tier_le t1 t2) /\
  (forall h1, highest_profits b1 !! symbol = Some h1 ->
     exists h2, highest_profits b2 !! symbol = Some h2 /\ (h1 <= h2)%Q) /\
  (forall h1 h2, (h1 <= h2)%Q -> tier_le (classify cfg h1) (classify cfg h2)).
Proof.
  intros b1 b2 Hcl.
  assert (rtc (step cfg) b1 b2) as Hsteps.
  { subst b1 b2. rewrite main_loop_app.
    destruct (main_loop cfg exchange ticks1 init_bot) as [[] b'|e b']; simpl.
    - apply steps_main_loop.
    - apply rtc_refl. }
  destruct (tier_steps cfg symbol b1 b2 (main_loop_ok ticks1 symbol) Hsteps)
    as (_ & Hmono).
  destruct (Hmono Hcl) as (Ht & Hh).
  split; [done |]. split; [done |]. apply classify_mono.
Qed.

End RunProperties.

(** ** The exits of one evaluation *)

Section Exits.

Variable cfg : Config.
Context {fl : Rounding}.
Variable exchange : list Event -> Order -> bool.

(** Splits a goal about one [evaluate] into the paths of lines 159-206 and
    computes what each path appends to the journal. *)
Ltac evaluate_paths :=
  rewrite evaluate_run; cbv zeta; rewrite tier_exit_run;
  destruct (classify cfg _) eqn:Etier; cbn [spec_floor trigger_msg];
  repeat first
    [ rewrite stop_loss_exit_run
    | rewrite close_position_run
    | match goal with
      | |- context [Qle_bool ?x ?y] => destruct (Qle_bool x y) eqn:?
      end
    | match goal with
      | |- context [exchange ?j ?o] => destruct (exchange j o) eqn:?
      end ];
  unfold delta;
  cbn [res_state journal closed_state unclosed_state forgotten journaled
       observed_state];
  rewrite <- ?app_assoc; rewrite drop_app_length; cbn [app].

Ltac solve_path :=
  cbn [tier_triggered stop_triggered existsb is_tier_trigger is_stop_trigger
       orb orders_of length];
  repeat match goal with
  | H : Qle_bool _ _ = true |- _ => apply Qle_bool_iff in H
  | H : Qle_bool _ _ = false |- _ => apply Qle_bool_gt in H
  end;
  repeat split; intros;
  first [ done | discriminate | lia | lra | by eexists
        | exfalso; lra
        | by left
        | by right
        | match goal with
          | H : _ \/ _ |- _ => destruct H; first [discriminate | exfalso; lra]
          end ].

(** The exit check of the code against the trailing check of the
    specification: the [continue] is reached exactly when the specification
    says to close. *)
Lemma tier_exit_refines (b : Bot) (symbol : string) (position_amt : Q)
    (side : string) (profit_pct highest_profit : Q) (t : Tier) :
  exists continued b',
    tier_exit cfg exchange symbol position_amt side profit_pct highest_profit
      t b = Ret continued b' /\
    (continued = true <-> spec_tier_close cfg t profit_pct highest_profit).
Proof.
  rewrite tier_exit_run. unfold spec_tier_close.
  destruct (spec_floor cfg t highest_profit) as [floor|].
  - destruct (Qle_bool profit_pct floor) eqn:E; do 2 eexists;
      (split; [reflexivity |]).
    + apply Qle_bool_iff in E. by split.
    + apply Qle_bool_gt in E. split; [discriminate | intros H; lra].
  - do 2 eexists. split; [reflexivity |]. split; [discriminate | done].
Qed.

(** C3, as the code has it.  In one evaluation of a position, with the peak
    as updated and the tier as reclassified in this evaluation: in tier
    LowProtect the tier exit fires exactly when the profit is at or under
    the configured low floor; in FirstTrail exactly when it is at or under
    the peak times one minus the first give-back fraction; in SecondTrail
    exactly when it is at or under the peak times one minus the second
    give-back fraction, the difference and the product being the
    floating-point ones of lines 187 and 196; without a tier no tier exit
    fires.  When the tier exit fires, the only order of the evaluation is
    the close of the position.  In every tier the evaluation sends an order
    exactly when the tier exit fires or the profit is at or under minus the
    stop-loss percentage. *)
Theorem tier_exit_iff (b : Bot) (symbol : string) (position_amt : Q)
    (side : string) (entry_price current_price profit_pct : Q) :
  let b' := res_state (evaluate cfg exchange symbol position_amt side
                         entry_price current_price profit_pct b) in
  let highest_profit := new_peak b symbol profit_pct in
  let fired := tier_triggered (delta b b') = true in
  match classify cfg highest_profit with
  | LowProtect => fired <-> (profit_pct <= low_trail_stop_loss_pct cfg)%Q
  | FirstTrail =>
      fired <->
      (profit_pct <= fmul highest_profit (fsub 1 (trail_stop_loss_pct cfg)))%Q
  | SecondTrail =>
      fired <->
      (profit_pct <=
       fmul highest_profit (fsub 1 (higher_trail_stop_loss_pct cfg)))%Q
  | TierNone => ~ fired
  end /\
  (fired ->
   exists returned,
     orders_of (delta b b') =
       [(close_order symbol (Qabs position_amt) side, returned)]) /\
  (orders_of (delta b b') <> [] <->
   fired \/ (profit_pct <= - stop_loss_pct cfg)%Q).
Proof.
  cbv zeta. evaluate_paths; solve_path.
Qed.


Lemma step_journal (b b' : Bot) :
  step cfg b b' -> exists d, journal b' = journal b ++ d.
Proof. destruct 1; simpl; by eexists. Qed.

Lemma steps_journal (b b' : Bot) :
  rtc (step cfg) b b' -> journal b' = journal b ++ delta b b'.
Proof.
  intros Hsteps.
  assert (exists d, journal b' = journal b ++ d) as [d Hd].
  { induction Hsteps as [b|b1 b2 b3 H12 _ [d2 IH]].
    - exists []. by rewrite app_nil_r.
    - destruct (step_journal b1 b2 H12) as [d1 E1].
      exists (d1 ++ d2). by rewrite IH, E1, app_assoc. }
  by rewrite (delta_app b b' d Hd).
Qed.

Lemma delta_steps (b1 b2 b3 : Bot) :
  rtc (step cfg) b1 b2 -> rtc (step cfg) b2 b3 ->
  delta b1 b3 = delta b1 b2 ++ delta b2 b3.
Proof.
  intros H12 H23. apply delta_app.
  rewrite (steps_journal b2 b3 H23), (steps_journal b1 b2 H12).
  by rewrite app_assoc.
Qed.

Lemma delta_same (b : Bot) : delta b b = [].
Proof. unfold delta. apply drop_all. Qed.







End Exits.

(** ** Closing a position *)

Section Closing.

Variable cfg : Config.
Context {fl : Rounding}.
Variable exchange : list Event -> Order -> bool.

(** On the tier exits [close_position] is given the held side, and the
    direction of its order is the opposite one. *)
Lemma close_order_held_side (symbol : string) (amount : Q) :
  ord_direction (close_order symbol amount "long") = "sell" /\
  ord_direction (close_order symbol amount "short") = "buy" /\
  ord_amount (close_order symbol amount "long") = amount /\
  ord_amount (close_order symbol amount "short") = amount.
Proof. by repeat split. Qed.

(** On the stop-loss exit [close_position] is given the direction computed
    on line 206 in place of the held side, and line 112 then always
    chooses to sell. *)
Lemma stop_loss_order_sells (symbol : string) (amount : Q) (side : string) :
  ord_direction
    (close_order symbol amount (if String.eqb side "long" then "sell" else "buy"))
  = "sell".
Proof. by destruct (String.eqb side "long"). Qed.

(** A position without a side is skipped with a warning and nothing else
    changes (lines 133-135). *)
Lemma side_none_skipped (position : Position) (b : Bot) :
  pos_side position = None ->
  monitor_position cfg exchange position b =
  Ret tt (journaled b [LogWarning (MsgSideNone (pos_symbol position))]).
Proof. intros E. rewrite monitor_position_run. by rewrite E. Qed.

(** A long or short position outside the blacklist whose entry price is
    zero or absent makes the loop body raise (lines 153 and 155). *)
Lemma zero_entry_price_raises (position : Position) (side : string) (b : Bot) :
  pos_side position = Some side ->
  lower side = "long" \/ lower side = "short" ->
  pos_symbol position ∉ blacklist cfg ->
  (default 0 (entryPrice (pos_info position)) == 0)%Q ->
  exists b', monitor_position cfg exchange position b = Raise ZeroDivisionError b'.
Proof.
  intros Eside Hside Hbl Hzero. rewrite monitor_position_run. cbv zeta.
  rewrite Eside, decide_False by done.
  apply Qeq_bool_iff in Hzero. rewrite Hzero.
  destruct Hside as [-> | ->]; simpl; by eexists.
Qed.

(** An exception in the loop body ends the cycle: the positions that follow
    are not looked at. *)
Lemma for_each_raise (position : Position) (rest : list Position)
    (e : Exn) (b b' : Bot) :
  monitor_position cfg exchange position b = Raise e b' ->
  for_each cfg exchange (position :: rest) b = Raise e b'.
Proof. intros E. simpl. unfold bind. by rewrite E. Qed.

(** C7.  When the order of [close_position] goes through, the peak, the
    tier and the detection mark of the symbol are removed and nothing else
    is; the symbol is then seen as new by lines 145-150, which store a peak
    of 0 and no tier for it and notify its detection, and the next profit is
    compared with that peak of 0.  When the order is refused, the peaks, the
    tiers and the detection marks are all left as they were. *)
Theorem close_clears_or_keeps (b : Bot) (symbol : string) (amount : Q)
    (side : string) :
  exists b',
    close_position exchange symbol amount side b =
      Ret (exchange (journal b) (close_order symbol amount side)) b' /\
    if exchange (journal b) (close_order symbol amount side) then
      highest_profits b' = delete symbol (highest_profits b) /\
      current_tiers b' = delete symbol (current_tiers b) /\
      detected_positions b' = detected_positions b ∖ {[symbol]} /\
      highest_profits b' !! symbol = None /\
      current_tiers b' !! symbol = None /\
      (symbol ∉ detected_positions b') /\
      (forall position_amt entry_price side',
         exists b'',
           first_sight symbol position_amt entry_price side' b' = Ret tt b'' /\
           highest_profits b'' !! symbol = Some 0%Q /\
           current_tiers b'' !! symbol = Some TierNone /\
           (symbol ∈ detected_positions b'') /\
           (Notify (MsgFirstDetected symbol position_amt entry_price side')
              ∈ delta b' b'') /\
           (forall profit_pct, new_peak b'' symbol profit_pct = Qmax 0 profit_pct))
    else
      highest_profits b' = highest_profits b /\
      current_tiers b' = current_tiers b /\
      detected_positions b' = detected_positions b.
Proof.
  rewrite close_position_run.
  destruct (exchange (journal b) (close_order symbol amount side)).
  - eexists. split; [reflexivity |]. simpl.
    assert (symbol ∉ detected_positions b ∖ {[symbol]}) as Hnot.
    { intros Hin. apply elem_of_difference in Hin as [_ Hin].
      apply Hin. by apply elem_of_singleton. }
    repeat split; try done; try apply lookup_delete_eq.
    intros position_amt entry_price side'. rewrite first_sight_run.
    eexists. split; [reflexivity |].
    cbn [closed_state forgotten journaled detected_positions].
    rewrite decide_True by done. simpl.
    rewrite !lookup_insert_eq. repeat split; try done.
    + apply elem_of_union_l. by apply elem_of_singleton.
    + unfold delta; simpl. rewrite drop_app_length.
      apply list_elem_of_here || (apply elem_of_cons; right; apply list_elem_of_here).
    + intros profit_pct. unfold new_peak; simpl. rewrite lookup_insert_eq. simpl.
      apply peak_update_max.
  - eexists. split; [reflexivity |]. by simpl.
Qed.

End Closing.

(** ** The bot on sample snapshots *)

Section Samples.

#[local] Existing Instance binary64.

(** C2.  A short position whose loss passes the stop-loss: the order sent
    to close it sells, with position side buy. *)
Theorem stop_loss_short_sells :
  let b := res_state (schedule_task cfg_demo accept_all
             [Some [position_of "BTCUSDT" (- (2)) 100 104 "short"]] init_bot) in
  stop_triggered (journal b) = true /\
  orders_of (journal b) =
    [({| ord_symbol := "BTCUSDT"; ord_type := "MARKET";
         ord_direction := "sell"; ord_amount := 2;
         ord_positionSide := "buy" |}, true)].
Proof. vm_compute. by split. Qed.

(** A short position that falls back under the low floor after reaching
    the low tier: the order sent to close it buys, with position side
    short. *)
Lemma tier_exit_short_buys :
  let b := res_state (schedule_task cfg_demo accept_all
             [Some [position_of "BTCUSDT" (- (2)) 100 97 "short"];
              Some [position_of "BTCUSDT" (- (2)) 100 99 "short"]] init_bot) in
  tier_triggered (journal b) = true /\
  orders_of (journal b) =
    [({| ord_symbol := "BTCUSDT"; ord_type := "MARKET";
         ord_direction := "buy"; ord_amount := 2;
         ord_positionSide := "short" |}, true)].
Proof. vm_compute. by split. Qed.

(** C6.  A snapshot whose first position has an entry price of zero: the
    cycle raises, the second position of the snapshot is never looked at,
    the second tick never happens and [schedule_task] returns after logging
    and notifying the exception; no warning is logged. *)
Theorem zero_entry_price_aborts :
  let ticks := [Some [position_of "BTCUSDT" 1 0 100 "long";
                      position_of "ETHUSDT" 1 100 101 "long"];
                Some [position_of "ETHUSDT" 1 100 101 "long"]] in
  (exists b, main_loop cfg_demo accept_all ticks init_bot
             = Raise ZeroDivisionError b) /\
  (exists b, schedule_task cfg_demo accept_all ticks init_bot = Ret tt b /\
     journal b =
       [LogInfo MsgLoopStart;
        LogInfo (MsgFirstDetected "BTCUSDT" 1 0 "long");
        Notify (MsgFirstDetected "BTCUSDT" 1 0 "long");
        LogError (MsgAbnormalExit ZeroDivisionError);
        Notify (MsgAbnormalExit ZeroDivisionError)] /\
     "ETHUSDT" ∉ detected_positions b).
Proof.
  split.
  - eexists. vm_compute. reflexivity.
  - eexists. split; [vm_compute; reflexivity |]. split; [reflexivity |].
    vm_compute. intros H. discriminate H.
Qed.

(** Profits of 1, 3 and 1 on a long position, with thresholds 2, 5 and 10:
    the tier is the low protection after the second profit, and the third
    profit, at the low floor of 1, closes the position. *)
Example low_protect_run :
  let tick mark := Some [position_of "BTCUSDT" 1 100 mark "long"] in
  let b2 := res_state (schedule_task cfg_demo accept_all
              [tick 101%Q; tick 103%Q] init_bot) in
  let b3 := res_state (schedule_task cfg_demo accept_all
              [tick 101%Q; tick 103%Q; tick 101%Q] init_bot) in
  current_tiers b2 !! "BTCUSDT" = Some LowProtect /\
  orders_of (journal b2) = [] /\
  orders_of (journal b3) =
    [(close_order "BTCUSDT" 1 "long", true)] /\
  highest_profits b3 !! "BTCUSDT" = None.
Proof. vm_compute. by repeat split. Qed.

(** With a peak of 8 in the first trailing tier and a give-back of one
    half, the floor is 4: a profit of 3 closes, a profit of 5 does not. *)
Example first_trail_run :
  let tick mark := Some [position_of "BTCUSDT" 1 100 mark "long"] in
  let closed := res_state (schedule_task cfg_demo accept_all
                  [tick 108%Q; tick 103%Q] init_bot) in
  let kept := res_state (schedule_task cfg_demo accept_all
                [tick 108%Q; tick 105%Q] init_bot) in
  orders_of (journal closed) = [(close_order "BTCUSDT" 1 "long", true)] /\
  orders_of (journal kept) = [] /\
  current_tiers kept !! "BTCUSDT" = Some FirstTrail.
Proof. vm_compute. by repeat split. Qed.

(** An order that the exchange refuses leaves the peak and the tier in
    place, and the next cycle sends it again. *)
Example refused_close_retried :
  let tick mark := Some [position_of "BTCUSDT" 1 100 mark "long"] in
  let b := res_state (schedule_task cfg_demo refuse_all
             [tick 108%Q; tick 103%Q; tick 103%Q] init_bot) in
  orders_of (journal b) =
    [(close_order "BTCUSDT" 1 "long", false);
     (close_order "BTCUSDT" 1 "long", false)] /\
  current_tiers b !! "BTCUSDT" = Some FirstTrail /\
  detection_notes "BTCUSDT" (journal b) = 1.
Proof. vm_compute. by repeat split. Qed.

(** With a low floor of -5 and a stop-loss of 3, a long position that reached
    a profit of 3 is in the low protection tier; at a profit of -4 it is
    above the low floor, and the engine closes it all the same, by the
    stop-loss of line 204. *)
Lemma low_protect_stop_loss_counterexample :
  let b := res_state (schedule_task cfg_wide accept_all
             [Some [position_of "BTCUSDT" 1 100 103 "long"]] init_bot) in
  let b' := res_state (monitor_positions cfg_wide accept_all
              (Some [position_of "BTCUSDT" 1 100 96 "long"]) b) in
  LogInfo (MsgMonitor "BTCUSDT" 1 "long" 100 96 (- (4)) 3 LowProtect)
    ∈ delta b b' /\
  ~ (orders_of (delta b b') <> [] <->
     (- (4) <= low_trail_stop_loss_pct cfg_wide)%Q).
Proof.
  intros b b'.
  assert (delta b b' =
    [LogInfo (MsgMonitor "BTCUSDT" 1 "long" 100 96 (- (4)) 3 LowProtect);
     LogInfo (MsgFloor (- (5)));
     LogInfo (MsgStopLoss "BTCUSDT" (- (4)));
     CreateOrder (close_order "BTCUSDT" 1 "sell") true;
     LogInfo (MsgClosed "BTCUSDT" 1 "sell");
     Notify (MsgClosed "BTCUSDT" 1 "sell")]) as ->
    by (vm_compute; reflexivity).
  split; [apply list_elem_of_here |].
  intros [Hclose _]. simpl in Hclose.
  assert (- (4) <= - (5))%Q as Hle by (by apply Hclose).
  revert Hle. unfold Qle; simpl. lia.
Qed.


(** The floor is rounded as on line 187.  With a peak of 3.0 and a give-back
    fraction of 0.1 the floor computed is 2.7 and a profit of 2.7 closes the
    position, although three times the exact difference of 1 and the double
    0.1 is under the double 2.7. *)
Example rounded_floor_closes :
  let b := res_state (schedule_task cfg_tenth accept_all
             [Some [position_of "BTCUSDT" 1 100 103 "long"]] init_bot) in
  let b' := res_state (evaluate cfg_tenth accept_all "BTCUSDT" 1 "long" 100
                         (round64 (1027 # 10)) (round64 (27 # 10)) b) in
  highest_profits b !! "BTCUSDT" = Some 3%Q /\
  tier_triggered (delta b b') = true /\
  (3 * (1 - trail_stop_loss_pct cfg_tenth) < round64 (27 # 10))%Q.
Proof. vm_compute. by repeat split. Qed.

(** The profit is rounded as on line 153.  Bought at 20 and marked at the
    doubles 21.2 then 20.6, a long position has profits just under 6 and
    just over 3: the floor, half of the peak, is under 3 and the position is
    kept in the first trailing tier. *)
Example rounded_profit_kept :
  let b := res_state (schedule_task cfg_demo accept_all
             [Some [position_of "BTCUSDT" 1 20 (round64 (212 # 10)) "long"];
              Some [position_of "BTCUSDT" 1 20 (round64 (206 # 10)) "long"]]
             init_bot) in
  observed "BTCUSDT" (journal b) =
    [(1688849860263935 # 281474976710656)%Q;
     (422212465065985 # 140737488355328)%Q] /\
  (1688849860263935 # 281474976710656 < 6)%Q /\
  (3 < 422212465065985 # 140737488355328)%Q /\
  current_tiers b !! "BTCUSDT" = Some FirstTrail /\
  orders_of (journal b) = [].
Proof. vm_compute. by repeat split. Qed.

(** A long position bought at 100 and marked at 99 has a profit of -1 and is
    kept: the peak stored for it is 0, while the maximum of the profits
    observed is -1. *)
Lemma peak_not_max_counterexample :
  let b := res_state (schedule_task cfg_demo accept_all
             [Some [position_of "BTCUSDT" 1 100 99 "long"]] init_bot) in
  ~ (forall h m,
       highest_profits b !! "BTCUSDT" = Some h ->
       seq_max (observed "BTCUSDT" (journal b)) = Some m ->
       (h == m)%Q).
Proof.
  intros b Hclaim.
  assert (highest_profits b !! "BTCUSDT" = Some 0%Q) as Eh
    by (vm_compute; reflexivity).
  assert (seq_max (observed "BTCUSDT" (journal b)) = Some (-1)%Q) as Em
    by (vm_compute; reflexivity).
  specialize (Hclaim _ _ Eh Em). vm_compute in Hclaim. discriminate Hclaim.
Qed.

(** With a low threshold of 0, the same position keeps a peak of 0 and gets
    the low protection tier, although its only observed profit is
    negative. *)
Lemma negative_profit_tier_counterexample :
  let b := res_state (schedule_task cfg_breakeven accept_all
             [Some [position_of "BTCUSDT" 1 100 99 "long"]] init_bot) in
  ~ (forall h,
       highest_profits b !! "BTCUSDT" = Some h ->
       (forall p, p ∈ observed "BTCUSDT" (journal b) -> (p < 0)%Q) ->
       (h == 0)%Q /\ current_tiers b !! "BTCUSDT" = Some TierNone).
Proof.
  intros b Hclaim.
  assert (highest_profits b !! "BTCUSDT" = Some 0%Q) as Eh
    by (vm_compute; reflexivity).
  assert (observed "BTCUSDT" (journal b) = [(-1)%Q]) as Eo
    by (vm_compute; reflexivity).
  assert (current_tiers b !! "BTCUSDT" = Some LowProtect) as Et
    by (vm_compute; reflexivity).
  destruct (Hclaim _ Eh) as (_ & Ht).
  - intros p Hp. rewrite Eo in Hp. apply list_elem_of_singleton in Hp as ->.
    reflexivity.
  - rewrite Et in Ht. discriminate Ht.
Qed.

(** ** The theorems on sample inputs *)

Lemma classify_spec_witness :
  (low_trail_profit_threshold cfg_demo < first_trail_profit_threshold cfg_demo)%Q /\
  (first_trail_profit_threshold cfg_demo < second_trail_profit_threshold cfg_demo)%Q /\
  classify cfg_demo 5 = FirstTrail.
Proof.
  split; [reflexivity |]. split; [reflexivity |].
  apply (classify_spec cfg_demo 5); reflexivity.
Defined.

Lemma peak_is_max_with_zero_witness :
  highest_profits
    (res_state (schedule_task cfg_demo accept_all
       [Some [position_of "BTCUSDT" 1 100 103 "long"]] init_bot)) !! "BTCUSDT"
  = Some 3%Q /\
  (0 <= 3)%Q.
Proof.
  assert (highest_profits
    (res_state (schedule_task cfg_demo accept_all
       [Some [position_of "BTCUSDT" 1 100 103 "long"]] init_bot)) !! "BTCUSDT"
    = Some 3%Q) as Eh by (vm_compute; reflexivity).
  split; [exact Eh |].
  exact (proj1 (proj2 (peak_is_max_with_zero cfg_demo accept_all _ _ _ Eh))).
Defined.

Lemma peak_never_negative_witness :
  highest_profits
    (res_state (schedule_task cfg_demo accept_all
       [Some [position_of "BTCUSDT" 1 100 99 "long"]] init_bot)) !! "BTCUSDT"
  = Some 0%Q /\
  (0 <= 0)%Q.
Proof.
  assert (highest_profits
    (res_state (schedule_task cfg_demo accept_all
       [Some [position_of "BTCUSDT" 1 100 99 "long"]] init_bot)) !! "BTCUSDT"
    = Some 0%Q) as Eh by (vm_compute; reflexivity).
  split; [exact Eh |].
  exact (proj1 (peak_never_negative cfg_demo accept_all _ _ _ Eh)).
Defined.

Lemma blacklisted_never_traded_witness :
  "DOGEUSDT" ∈ blacklist cfg_demo /\
  orders_for "DOGEUSDT"
    (journal (res_state (schedule_task cfg_demo accept_all
       [Some [position_of "DOGEUSDT" 1 100 50 "long"];
        Some [position_of "DOGEUSDT" 1 100 40 "long"]] init_bot))) = [].
Proof.
  assert ("DOGEUSDT" ∈ blacklist cfg_demo) as Hbl
    by (vm_compute; reflexivity).
  split; [exact Hbl |].
  exact (proj1 (blacklisted_never_traded cfg_demo accept_all _ _ Hbl)).
Defined.

Lemma tier_never_decreases_witness :
  closes "BTCUSDT"
    (journal (res_state (main_loop cfg_demo accept_all
       ([Some [position_of "BTCUSDT" 1 100 103 "long"]] ++
        [Some [position_of "BTCUSDT" 1 100 106 "long"]]) init_bot))) =
  closes "BTCUSDT"
    (journal (res_state (main_loop cfg_demo accept_all
       [Some [position_of "BTCUSDT" 1 100 103 "long"]] init_bot))) /\
  (forall h1 h2, (h1 <= h2)%Q ->
     tier_le (classify cfg_demo h1) (classify cfg_demo h2)).
Proof.
  assert (closes "BTCUSDT"
    (journal (res_state (main_loop cfg_demo accept_all
       ([Some [position_of "BTCUSDT" 1 100 103 "long"]] ++
        [Some [position_of "BTCUSDT" 1 100 106 "long"]]) init_bot))) =
  closes "BTCUSDT"
    (journal (res_state (main_loop cfg_demo accept_all
       [Some [position_of "BTCUSDT" 1 100 103 "long"]] init_bot)))) as Hcl
    by (vm_compute; reflexivity).
  split; [exact Hcl |].
  exact (proj2 (proj2 (tier_never_decreases cfg_demo accept_all _ _ _ Hcl))).
Defined.

(** The tiers of the sample run of the witness above. *)
Example tier_rises :
  current_tiers
    (res_state (main_loop cfg_demo accept_all
       [Some [position_of "BTCUSDT" 1 100 103 "long"]] init_bot)) !! "BTCUSDT"
  = Some LowProtect /\
  current_tiers
    (res_state (main_loop cfg_demo accept_all
       ([Some [position_of "BTCUSDT" 1 100 103 "long"]] ++
        [Some [position_of "BTCUSDT" 1 100 106 "long"]]) init_bot)) !! "BTCUSDT"
  = Some FirstTrail.
Proof. split; vm_compute; reflexivity. Qed.


End Samples.

(** ** Further properties of the methods *)

Section Further.

Variable cfg : Config.
Context {fl : Rounding}.
Variable exchange : list Event -> Order -> bool.

(** As the splitting of the paths of [evaluate], for goals about the state
    reached and about the journal. *)
Ltac evaluate_cases :=
  rewrite evaluate_run; cbv zeta; rewrite tier_exit_run;
  destruct (classify cfg _) eqn:Etier; cbn [spec_floor trigger_msg];
  repeat first
    [ rewrite stop_loss_exit_run
    | rewrite close_position_run
    | match goal with
      | |- context [Qle_bool ?x ?y] => destruct (Qle_bool x y) eqn:?
      end
    | match goal with
      | |- context [exchange ?j ?o] => destruct (exchange j o) eqn:?
      end ];
  unfold delta;
  cbn [res_state journal highest_profits current_tiers detected_positions
       closed_state unclosed_state forgotten journaled observed_state];
  rewrite <- ?app_assoc; rewrite ?drop_app_length; cbn [app].

(** The orders of one evaluation, by the exit taken. *)
Lemma evaluate_orders (symbol : string) (position_amt : Q) (side : string)
    (entry_price current_price profit_pct : Q) (b : Bot) :
  let b' := res_state (evaluate cfg exchange symbol position_amt side
                         entry_price current_price profit_pct b) in
  exists returned,
    orders_of (delta b b') =
    match exit_choice cfg side profit_pct (new_peak b symbol profit_pct) with
    | Some s => [(close_order symbol (Qabs position_amt) s, returned)]
    | None => []
    end.
Proof.
  cbv zeta. unfold exit_choice. evaluate_cases.
  all: cbn [orders_of]; first [by eexists | by exists true].
Qed.

Lemma new_peak_bounds (b : Bot) (symbol : string) (profit_pct : Q) :
  (profit_pct <= new_peak b symbol profit_pct)%Q /\
  (default 0%Q (highest_profits b !! symbol) <= new_peak b symbol profit_pct)%Q.
Proof.
  unfold new_peak.
  destruct (Qltb (default 0%Q (highest_profits b !! symbol)) profit_pct) eqn:E.
  - apply Qltb_lt in E. split; lra.
  - apply Qltb_ge in E. split; lra.
Qed.

(** X11.  After one evaluation of a position: if its order went through,
    the symbol has no peak, no tier and no detection mark left; otherwise
    its tier is the classification of the updated peak, its stored peak is
    the profit when the profit is above the peak read and is untouched when
    it is not, and the detection marks are as before.  The updated peak is
    at least the profit and at least the peak read. *)
Theorem evaluate_outcome (symbol : string) (position_amt : Q) (side : string)
    (entry_price current_price profit_pct : Q) (b : Bot) :
  let b' := res_state (evaluate cfg exchange symbol position_amt side
                         entry_price current_price profit_pct b) in
  let highest_profit := new_peak b symbol profit_pct in
  (if accepted (delta b b') then
     highest_profits b' !! symbol = None /\
     current_tiers b' !! symbol = None /\
     (symbol ∉ detected_positions b')
   else
     current_tiers b' !! symbol = Some (classify cfg highest_profit) /\
     highest_profits b' !! symbol =
       (if Qltb (default 0%Q (highest_profits b !! symbol)) profit_pct
        then Some profit_pct else highest_profits b !! symbol) /\
     detected_positions b' = detected_positions b) /\
  (profit_pct <= highest_profit)%Q /\
  (default 0%Q (highest_profits b !! symbol) <= highest_profit)%Q.
Proof.
  cbv zeta. split; [| apply new_peak_bounds].
  evaluate_cases.
  all: cbn [accepted orders_of existsb snd orb];
    rewrite ?lookup_delete_eq, ?lookup_insert_eq;
    repeat split; try done;
    try (destruct (Qltb _ profit_pct); by rewrite ?lookup_insert_eq).
  all: first [ by rewrite Etier
             | apply not_elem_of_difference; right; by apply elem_of_singleton ].
Qed.

(** After an evaluation in which no order went through, the same profit
    gives the same updated peak. *)
Lemma refused_peak (symbol : string) (position_amt : Q) (side : string)
    (entry_price current_price profit_pct : Q) (b : Bot) :
  let b' := res_state (evaluate cfg exchange symbol position_amt side
                         entry_price current_price profit_pct b) in
  accepted (delta b b') = false ->
  new_peak b' symbol profit_pct = new_peak b symbol profit_pct.
Proof.
  cbv zeta. unfold new_peak at 1 2. evaluate_cases.
  all: cbn [accepted orders_of existsb snd orb]; intros Hacc;
    try discriminate Hacc.
  all: destruct (Qltb (default 0%Q (highest_profits b !! symbol)) profit_pct)
         eqn:E; rewrite ?lookup_insert_eq; cbn [default]; rewrite ?E; try done.
  all: unfold id;
    assert (Qltb profit_pct profit_pct = false) as ->
      by (apply Qltb_ge; apply Qle_refl); done.
Qed.

(** X8.  When the order of an evaluation is refused, evaluating the same
    position with the same profit next sends the same order again. *)
Theorem refused_order_sent_again (symbol : string) (position_amt : Q)
    (side : string) (entry_price current_price profit_pct : Q) (b : Bot)
    (o : Order) :
  let b1 := res_state (evaluate cfg exchange symbol position_amt side
                         entry_price current_price profit_pct b) in
  let b2 := res_state (evaluate cfg exchange symbol position_amt side
                         entry_price current_price profit_pct b1) in
  orders_of (delta b b1) = [(o, false)] ->
  exists returned, orders_of (delta b1 b2) = [(o, returned)].
Proof.
  intros b1 b2 Hrefused.
  destruct (evaluate_orders symbol position_amt side entry_price current_price
              profit_pct b) as [r1 E1]. fold b1 in E1.
  destruct (evaluate_orders symbol position_amt side entry_price current_price
              profit_pct b1) as [r2 E2]. fold b2 in E2.
  assert (accepted (delta b b1) = false) as Hacc
    by (unfold accepted; by rewrite Hrefused).
  pose proof (refused_peak symbol position_amt side entry_price current_price
                profit_pct b Hacc) as Hpeak.
  fold b1 in Hpeak. rewrite Hpeak in E2.
  rewrite Hrefused in E1.
  destruct (exit_choice cfg side profit_pct (new_peak b symbol profit_pct))
    as [s|]; [| discriminate E1].
  injection E1 as -> _. by exists r2.
Qed.


(** One evaluation leaves what is stored for the other symbols alone. *)
Lemma evaluate_frame (s symbol : string) (position_amt : Q) (side : string)
    (entry_price current_price profit_pct : Q) (b : Bot) :
  s <> symbol ->
  let b' := res_state (evaluate cfg exchange symbol position_amt side
                         entry_price current_price profit_pct b) in
  highest_profits b' !! s = highest_profits b !! s /\
  current_tiers b' !! s = current_tiers b !! s /\
  (s ∈ detected_positions b' <-> s ∈ detected_positions b).
Proof.
  intros Hne. cbv zeta. evaluate_cases.
  all: rewrite ?lookup_delete_ne, ?lookup_insert_ne by done;
    (split; [destruct (Qltb _ profit_pct);
             by rewrite ?lookup_insert_ne by done |]);
    (split; [done |]); set_unfold; intuition congruence.
Qed.

Lemma monitor_position_frame (s : string) (position : Position) (b : Bot) :
  s <> pos_symbol position ->
  let b' := res_state (monitor_position cfg exchange position b) in
  highest_profits b' !! s = highest_profits b !! s /\
  current_tiers b' !! s = current_tiers b !! s /\
  (s ∈ detected_positions b' <-> s ∈ detected_positions b).
Proof.
  intros Hne. rewrite monitor_position_run. cbv zeta.
  destruct (pos_side position) as [side|]; [| by simpl].
  destruct (decide (pos_symbol position ∈ blacklist cfg)).
  { simpl. destruct (decide _); simpl; [| done].
    repeat split; try done; set_unfold; intuition congruence. }
  set (b1 := if decide (pos_symbol position ∉ detected_positions b) then _ else b).
  assert (highest_profits b1 !! s = highest_profits b !! s /\
          current_tiers b1 !! s = current_tiers b !! s /\
          (s ∈ detected_positions b1 <-> s ∈ detected_positions b)) as Hb1.
  { subst b1. destruct (decide _); simpl; [| done].
    rewrite !lookup_insert_ne by done.
    repeat split; try done; set_unfold; intuition congruence. }
  clearbody b1. destruct Hb1 as (Hh & Ht & Hd).
  assert (forall profit_pct,
    let b' := res_state (evaluate cfg exchange (pos_symbol position)
                (default 0%Q (positionAmt (pos_info position))) (lower side)
                (default 0%Q (entryPrice (pos_info position)))
                (default 0%Q (markPrice (pos_info position))) profit_pct b1) in
    highest_profits b' !! s = highest_profits b !! s /\
    current_tiers b' !! s = current_tiers b !! s /\
    (s ∈ detected_positions b' <-> s ∈ detected_positions b)) as Hev.
  { intros profit_pct b'. rewrite <- Hh, <- Ht, <- Hd.
    by apply evaluate_frame. }
  destruct (String.eqb (lower side) "long").
  { destruct (Qeq_bool _ 0); simpl; [done | apply Hev]. }
  destruct (String.eqb (lower side) "short"); [| done].
  destruct (Qeq_bool _ 0); simpl; [done | apply Hev].
Qed.

(** X3.  A cycle leaves the peak, the tier and the detection mark of every
    symbol that is not in its snapshot as they were: what is stored for a
    position that left the snapshots stays stored. *)
Theorem absent_symbol_untouched (positions : list Position) (b : Bot)
    (s : string) :
  s ∉ map pos_symbol positions ->
  let b' := res_state (monitor_positions cfg exchange (Some positions) b) in
  highest_profits b' !! s = highest_profits b !! s /\
  current_tiers b' !! s = current_tiers b !! s /\
  (s ∈ detected_positions b' <-> s ∈ detected_positions b).
Proof.
  intros Hs. unfold monitor_positions. rewrite bind_state. simpl.
  assert (s ∉ map pos_symbol (filter (fun pos => held pos = true) positions))
    as Hs'.
  { intros Hin. apply Hs.
    apply list_elem_of_fmap in Hin as (x & -> & Hin).
    apply list_elem_of_fmap. exists x. split; [done |].
    by apply list_elem_of_filter in Hin as [_ Hin]. }
  clear Hs. revert b Hs'.
  induction (filter (fun pos => held pos = true) positions)
    as [|position rest IH]; intros b Hs; simpl; [done |].
  apply not_elem_of_cons in Hs as [Hne Hs]. rewrite bind_state.
  pose proof (monitor_position_frame s position b Hne) as Hframe.
  destruct (monitor_position cfg exchange position b) as [[] b1|e b1];
    simpl in Hframe; [| exact Hframe].
  destruct Hframe as (Hh & Ht & Hd), (IH b1 Hs) as (Hh' & Ht' & Hd').
  rewrite <- Hh, <- Ht, <- Hd. done.
Qed.

(** The events of one evaluation are logs, notifications and orders that
    close its position. *)
Lemma evaluate_events (P : Event -> Prop) (symbol : string) (position_amt : Q)
    (side : string) (entry_price current_price profit_pct : Q) (b : Bot) :
  (forall m, P (LogInfo m)) -> (forall m, P (LogError m)) ->
  (forall m, P (Notify m)) ->
  (forall s r, P (CreateOrder (close_order symbol (Qabs position_amt) s) r)) ->
  let b' := res_state (evaluate cfg exchange symbol position_amt side
                         entry_price current_price profit_pct b) in
  Forall P (delta b b').
Proof.
  intros Hinfo Herror Hnote Horder. cbv zeta. evaluate_cases.
  all: repeat (apply Forall_cons; split; [done |]); apply Forall_nil_2.
Qed.

(** What one pass of the loop body appends to the journal: the warning for
    a position without side; the one-time notification for a blacklisted
    symbol; otherwise the two events of a first detection, if it is one,
    followed for a long or short position with a non-zero entry price by the
    events of the evaluation of its profit. *)
Lemma monitor_position_delta (position : Position) (b : Bot) :
  let b' := res_state (monitor_position cfg exchange position b) in
  let symbol := pos_symbol position in
  let position_amt := default 0%Q (positionAmt (pos_info position)) in
  let entry_price := default 0%Q (entryPrice (pos_info position)) in
  let current_price := default 0%Q (markPrice (pos_info position)) in
  match pos_side position with
  | None => delta b b' = [LogWarning (MsgSideNone symbol)]
  | Some side =>
      if decide (symbol ∈ blacklist cfg) then
        delta b b' = [Notify (MsgBlacklisted symbol)] \/ delta b b' = []
      else
        exists d1 b1,
          (d1 = [] \/
           d1 = [LogInfo (MsgFirstDetected symbol position_amt entry_price
                            (lower side));
                 Notify (MsgFirstDetected symbol position_amt entry_price
                           (lower side))]) /\
          (((entry_price == 0)%Q \/
            (lower side <> "long" /\ lower side <> "short")) /\
           delta b b' = d1 \/
           exists profit_pct,
             ~ (entry_price == 0)%Q /\
             ((lower side = "long" /\
               profit_pct =
                 fmul (fquot (fsub current_price entry_price) entry_price)
                   100) \/
              (lower side = "short" /\
               profit_pct =
                 fmul (fquot (fsub entry_price current_price) entry_price)
                   100)) /\
             delta b b' =
               d1 ++ delta b1 (res_state
                       (evaluate cfg exchange symbol position_amt (lower side)
                          entry_price current_price profit_pct b1)))
  end.
Proof.
  rewrite monitor_position_run. cbv zeta.
  destruct (pos_side position) as [side|].
  2: { simpl. by apply delta_app. }
  destruct (decide (pos_symbol position ∈ blacklist cfg)) as [Hb|Hb].
  { simpl. destruct (decide _).
    - left. by apply delta_app.
    - right. apply delta_same. }
  set (b1 := if decide (pos_symbol position ∉ detected_positions b) then _ else b).
  set (fd := [LogInfo (MsgFirstDetected (pos_symbol position)
                (default 0%Q (positionAmt (pos_info position)))
                (default 0%Q (entryPrice (pos_info position))) (lower side));
              Notify (MsgFirstDetected (pos_symbol position)
                (default 0%Q (positionAmt (pos_info position)))
                (default 0%Q (entryPrice (pos_info position))) (lower side))]).
  assert (rtc (step cfg) b b1 /\
          ((delta b b1 = [] \/ delta b b1 = fd))) as [Hsteps Hd1].
  { subst b1. destruct (decide _).
    - split; [apply rtc_once; by constructor |]. right. by apply delta_app.
    - split; [apply rtc_refl |]. left. apply delta_same. }
  assert (pos_symbol position ∈ detected_positions b1) as Hd
    by apply first_sight_detected.
  clearbody b1. exists (delta b b1), b1. split; [exact Hd1 |].
  destruct (String.eqb (lower side) "long") eqn:Elong.
  { destruct (Qeq_bool _ 0) eqn:Ez; simpl.
    { left. split; [| done]. left. by apply Qeq_bool_iff. }
    right. eexists. split; [by apply Qeq_bool_neq |].
    split; [left; split; [by apply String.eqb_eq | reflexivity] |].
    apply (delta_steps cfg); [done | by apply steps_evaluate]. }
  destruct (String.eqb (lower side) "short") eqn:Eshort.
  2: { left. split; [| done]. right. split; by apply String.eqb_neq. }
  destruct (Qeq_bool _ 0) eqn:Ez; simpl.
  { left. split; [| done]. left. by apply Qeq_bool_iff. }
  right. eexists. split; [by apply Qeq_bool_neq |].
  split; [right; split; [by apply String.eqb_eq | reflexivity] |].
  apply (delta_steps cfg); [done | by apply steps_evaluate].
Qed.

(** The events of one pass of the loop body on a position kept by
    [fetch_positions]. *)
Lemma monitor_position_events (P : Event -> Prop) (position : Position) (b : Bot) :
  (forall m, P (LogInfo m)) -> (forall m, P (LogError m)) ->
  (forall m, P (Notify m)) ->
  (forall symbol amount s r,
     symbol ∉ blacklist cfg -> ~ (amount == 0)%Q ->
     P (CreateOrder (close_order symbol (Qabs amount) s) r)) ->
  held position = true ->
  Forall P (delta b (res_state (monitor_position cfg exchange position b))).
Proof.
  intros Hinfo Herror Hnote Horder Hheld.
  unfold held in Hheld. apply andb_true_iff in Hheld as [Hamt Hside].
  apply bool_decide_eq_true in Hside. apply negb_true_iff in Hamt.
  apply Qeq_bool_neq in Hamt.
  pose proof (monitor_position_delta position b) as Hd. cbv zeta in Hd.
  destruct (pos_side position) as [side|]; [| done].
  destruct (decide (pos_symbol position ∈ blacklist cfg)) as [Hb|Hb].
  { destruct Hd as [-> | ->]; [| apply Forall_nil_2].
    apply Forall_cons; split; [done | apply Forall_nil_2]. }
  destruct Hd as (d1 & b1 & Hd1 & Hd).
  assert (Forall P d1) as H1.
  { destruct Hd1 as [-> | ->]; [apply Forall_nil_2 |].
    repeat (apply Forall_cons; split; [done |]). apply Forall_nil_2. }
  destruct Hd as [[_ ->] | (profit_pct & _ & _ & ->)]; [done |].
  apply Forall_app. split; [done |].
  apply evaluate_events; try done. intros s r. by apply Horder.
Qed.

Lemma for_each_events (P : Event -> Prop) (positions : list Position) (b : Bot) :
  (forall position b0, position ∈ positions ->
     Forall P (delta b0 (res_state (monitor_position cfg exchange position b0)))) ->
  Forall P (delta b (res_state (for_each cfg exchange positions b))).
Proof.
  revert b. induction positions as [|position rest IH]; intros b Hall; simpl.
  - rewrite delta_same. apply Forall_nil_2.
  - rewrite bind_state.
    pose proof (Hall position b (list_elem_of_here _ _)) as H1.
    pose proof (steps_monitor_position cfg exchange position b) as Hs1.
    destruct (monitor_position cfg exchange position b) as [[] b1|e b1];
      simpl in *; [| done].
    rewrite (delta_steps cfg b b1) by (done || apply steps_for_each).
    apply Forall_app. split; [done |]. apply IH.
    intros p0 b0 Hin. apply Hall. by apply elem_of_cons; right.
Qed.

Lemma run_events (P : Event -> Prop) (ticks : list (option (list Position)))
    (b : Bot) :
  (forall m, P (LogInfo m)) -> (forall m, P (LogError m)) ->
  (forall m, P (Notify m)) ->
  (forall symbol amount s r,
     symbol ∉ blacklist cfg -> ~ (amount == 0)%Q ->
     P (CreateOrder (close_order symbol (Qabs amount) s) r)) ->
  Forall P (delta b (res_state (schedule_task cfg exchange ticks b))).
Proof.
  intros Hinfo Herror Hnote Horder.
  assert (forall response b0,
    Forall P (delta b0 (res_state (monitor_positions cfg exchange response b0))))
    as Hcycle.
  { intros response b0. unfold monitor_positions. rewrite bind_state.
    destruct response as [positions|]; simpl.
    - apply for_each_events. intros position b1 Hin.
      apply monitor_position_events; try done.
      by apply list_elem_of_filter in Hin as [Hheld _].
    - rewrite (delta_app _ _ [LogError MsgFetchError]) by done.
      apply Forall_cons. split; [done | apply Forall_nil_2]. }
  assert (forall b0,
    Forall P (delta b0 (res_state (main_loop cfg exchange ticks b0)))) as Hloop.
  { induction ticks as [|response rest IH]; intros b0; simpl.
    - rewrite delta_same. apply Forall_nil_2.
    - rewrite bind_state.
      pose proof (Hcycle response b0) as H1.
      pose proof (steps_monitor_positions cfg exchange response b0) as Hs1.
      destruct (monitor_positions cfg exchange response b0) as [[] b1|e b1];
        simpl in *; [| done].
      rewrite (delta_steps cfg b0 b1) by (done || apply steps_main_loop).
      apply Forall_app. split; [done | apply IH]. }
  unfold schedule_task. rewrite bind_state. unfold logger_info.
  rewrite emit_run. unfold try_except.
  set (b0 := journaled b [LogInfo MsgLoopStart]).
  assert (rtc (step cfg) b b0) as Hs0
    by (by apply (steps_quiet cfg b [LogInfo MsgLoopStart])).
  assert (delta b b0 = [LogInfo MsgLoopStart]) as Hd0 by (by apply delta_app).
  pose proof (Hloop b0) as H1.
  pose proof (steps_main_loop cfg exchange ticks b0) as Hs1.
  destruct (main_loop cfg exchange ticks b0) as [[] b1|e b1]; simpl in *.
  - rewrite (delta_steps cfg b b0 b1) by done. rewrite Hd0.
    apply Forall_cons. split; [done | exact H1].
  - set (b2 := {| highest_profits := highest_profits b1;
                  current_tiers := current_tiers b1;
                  detected_positions := detected_positions b1;
                  journal := (journal b1 ++ [LogError (MsgAbnormalExit e)]) ++
                             [Notify (MsgAbnormalExit e)] |}).
    assert (rtc (step cfg) b1 b2) as Hs2.
    { pose proof (steps_quiet cfg b1 [LogError (MsgAbnormalExit e);
                    Notify (MsgAbnormalExit e)] eq_refl) as H2.
      unfold b2. rewrite <- app_assoc. exact H2. }
    assert (delta b1 b2 = [LogError (MsgAbnormalExit e);
                           Notify (MsgAbnormalExit e)]) as Hd2.
    { apply delta_app. unfold b2; simpl. by rewrite <- app_assoc. }
    rewrite (delta_steps cfg b b0 b2) by (done || by etrans).
    rewrite (delta_steps cfg b0 b1 b2) by done. rewrite Hd0, Hd2.
    apply Forall_cons. split; [done |]. apply Forall_app. split; [done |].
    repeat (apply Forall_cons; split; [done |]). apply Forall_nil_2.
Qed.

(** X2.  No run of [schedule_task] logs a warning: [fetch_positions] keeps
    only positions with a side, so the check of lines 133-135 never
    fires. *)
Theorem no_warning_logged (ticks : list (option (list Position))) (b : Bot) :
  Forall (fun e => is_warning e = false)
    (delta b (res_state (schedule_task cfg exchange ticks b))).
Proof. by apply run_events. Qed.

Lemma orders_of_elem (o : Order) (r : bool) (es : list Event) :
  (o, r) ∈ orders_of es -> CreateOrder o r ∈ es.
Proof.
  induction es as [|e es IH]; simpl; [by intros H%elem_of_nil |].
  destruct e; try (intros H; apply elem_of_cons; right; by apply IH).
  intros [[= -> ->]|H]%elem_of_cons; [apply list_elem_of_here |].
  apply elem_of_cons; right; by apply IH.
Qed.

(** X7.  Every order sent during a run of [schedule_task] is a market
    order, for a positive amount, to buy or to sell, for a symbol that is
    not in the blacklist. *)
Theorem orders_well_formed (ticks : list (option (list Position))) (b : Bot)
    (o : Order) (r : bool) :
  (o, r) ∈ orders_of (delta b (res_state (schedule_task cfg exchange ticks b))) ->
  order_ok cfg o.
Proof.
  intros Hin. apply orders_of_elem in Hin.
  pose proof (run_events
    (fun e => forall o r, e = CreateOrder o r -> order_ok cfg o) ticks b) as Hall.
  rewrite Forall_forall in Hall.
  apply (Hall ltac:(done) ltac:(done) ltac:(done)) with (x := CreateOrder o r) (r := r);
    [| done | done].
  intros symbol amount s r0 Hbl Hamt o0 r1 [= <- _]. unfold order_ok; simpl.
  split; [done |]. split; [| split; [| done]].
  { pose proof (Qabs_nonneg amount) as Hge.
    apply Qle_lteq in Hge as [Hlt | Heq]; [done |].
    exfalso. apply Hamt. revert Heq.
    apply Qabs_case; intros _ Heq; lra. }
  destruct (String.eqb s "short"); [by left | by right].
Qed.

Lemma evaluate_observed (symbol : string) (position_amt : Q) (side : string)
    (entry_price current_price profit_pct : Q) (b : Bot) (acc : list Q) :
  let b' := res_state (evaluate cfg exchange symbol position_amt side
                         entry_price current_price profit_pct b) in
  fold_left (observe_event symbol) (delta b b') acc = acc ++ [profit_pct].
Proof.
  cbv zeta. evaluate_cases.
  all: cbn [fold_left observe_event]; by rewrite String.eqb_refl.
Qed.

(** The sign of a profit percentage: the difference, the quotient by a
    positive entry price and the product by 100 keep it, rounded or not. *)
Lemma pct_sign (x y e : Q) :
  (0 < e)%Q ->
  ((y <= x)%Q -> (0 <= fmul (fquot (fsub x y) e) 100)%Q) /\
  ((x <= y)%Q -> (fmul (fquot (fsub x y) e) 100 <= 0)%Q).
Proof.
  intros He. assert (0 < / e)%Q as Hinv by (by apply Qinv_lt_0_compat).
  unfold fmul, fquot, fsub, Qdiv. split; intros Hxy.
  - apply round_nonneg.
    assert (0 <= round (round (x - y) * / e))%Q as Hq.
    { apply round_nonneg.
      assert (0 <= round (x - y))%Q as Hd by (apply round_nonneg; lra).
      nra. }
    lra.
  - apply round_nonpos.
    assert (round (round (x - y) * / e) <= 0)%Q as Hq.
    { apply round_nonpos.
      assert (round (x - y) <= 0)%Q as Hd by (apply round_nonpos; lra).
      nra. }
    lra.
Qed.

(** X10.  For a position outside the blacklist with a positive entry price,
    one pass of the loop body observes one profit, the one of line 153 for
    a long position and of line 155 for a short one, computed in floating
    point.  For a long position it is not negative when the mark is at or
    over the entry and not positive when the mark is at or under it; for a
    short position it is the other way round. *)
Theorem profit_direction (position : Position) (side : string) (b : Bot) :
  let symbol := pos_symbol position in
  let entry_price := default 0%Q (entryPrice (pos_info position)) in
  let current_price := default 0%Q (markPrice (pos_info position)) in
  let b' := res_state (monitor_position cfg exchange position b) in
  pos_side position = Some side ->
  symbol ∉ blacklist cfg ->
  (0 < entry_price)%Q ->
  (lower side = "long" ->
   exists profit_pct,
     observed symbol (delta b b') = [profit_pct] /\
     profit_pct =
       fmul (fquot (fsub current_price entry_price) entry_price) 100 /\
     ((entry_price <= current_price)%Q -> (0 <= profit_pct)%Q) /\
     ((current_price <= entry_price)%Q -> (profit_pct <= 0)%Q)) /\
  (lower side = "short" ->
   exists profit_pct,
     observed symbol (delta b b') = [profit_pct] /\
     profit_pct =
       fmul (fquot (fsub entry_price current_price) entry_price) 100 /\
     ((current_price <= entry_price)%Q -> (0 <= profit_pct)%Q) /\
     ((entry_price <= current_price)%Q -> (profit_pct <= 0)%Q)).
Proof.
  intros symbol entry_price current_price b' Hside Hbl Hentry.
  pose proof (monitor_position_delta position b) as Hd. cbv zeta in Hd.
  fold symbol entry_price current_price b' in Hd.
  rewrite Hside, decide_False in Hd by done.
  destruct Hd as (d1 & b1 & Hd1 & Hd).
  assert (observed symbol d1 = []) as Ho1.
  { destruct Hd1 as [-> | ->]; [done |].
    unfold observed; simpl. by rewrite String.eqb_refl. }
  assert (forall profit_pct,
    delta b b' = d1 ++ delta b1 (res_state
       (evaluate cfg exchange symbol
          (default 0%Q (positionAmt (pos_info position))) (lower side)
          entry_price current_price profit_pct b1)) ->
    observed symbol (delta b b') = [profit_pct]) as Hobs.
  { intros profit_pct ->. rewrite observed_app, Ho1.
    apply (evaluate_observed symbol _ (lower side) entry_price current_price
             profit_pct b1 []). }
  destruct Hd as [[[Hz | [Hnl Hns]] _] | (profit_pct & _ & Hp & Hdelta)].
  { rewrite Hz in Hentry. by apply Qlt_irrefl in Hentry. }
  { split; intros Hs; congruence. }
  specialize (Hobs profit_pct Hdelta).
  split; intros Hs; destruct Hp as [[Hs' Hp] | [Hs' Hp]]; try congruence;
    exists profit_pct; (split; [exact Hobs |]); (split; [exact Hp |]);
    rewrite Hp.
  - apply (pct_sign current_price entry_price entry_price Hentry).
  - apply (pct_sign entry_price current_price entry_price Hentry).
Qed.

Lemma lower_ascii_idem (c : ascii) : lower_ascii (lower_ascii c) = lower_ascii c.
Proof. destruct c as [[] [] [] [] [] [] [] []]; reflexivity. Qed.

Lemma lower_idem (s : string) : lower (lower s) = lower s.
Proof.
  induction s as [|c s IH]; simpl; [done |].
  by rewrite lower_ascii_idem, IH.
Qed.

(** X6.  The side of a position is read without regard to case: the loop
    body does the same on a position and on that position with its side in
    lower case. *)
Theorem side_case_insensitive (position : Position) (side : string) (b : Bot) :
  pos_side position = Some side ->
  monitor_position cfg exchange position b =
  monitor_position cfg exchange
    {| pos_symbol := pos_symbol position; pos_info := pos_info position;
       pos_side := Some (lower side) |} b.
Proof.
  intros Hside. unfold monitor_position. cbv zeta. simpl.
  by rewrite Hside, lower_idem.
Qed.

(** X1.  A position whose amount is zero or absent, or that has no side, is
    dropped by [fetch_positions]: the cycle is the one of the snapshot
    without it. *)
Theorem not_held_ignored (before after : list Position) (position : Position)
    (b : Bot) :
  (default 0 (positionAmt (pos_info position)) == 0)%Q \/
  pos_side position = None ->
  monitor_positions cfg exchange (Some (before ++ position :: after)) b =
  monitor_positions cfg exchange (Some (before ++ after)) b.
Proof.
  intros Hdrop.
  assert (held position = false) as Hheld.
  { unfold held. destruct Hdrop as [Hz | Hs].
    - apply Qeq_bool_iff in Hz. by rewrite Hz.
    - rewrite Hs. apply andb_false_iff. right.
      apply bool_decide_eq_false. intros H. by apply H. }
  unfold monitor_positions, fetch_positions, bind, ret.
  rewrite !filter_app, filter_cons_False; [done |]. by rewrite Hheld.
Qed.

(** X4.  After any run of the bot from its start, the symbols that have a
    stored peak are the symbols that have a stored tier, and they are the
    symbols marked as detected that are not in the blacklist. *)
Theorem containers_agree (ticks : list (option (list Position))) :
  let b := res_state (schedule_task cfg exchange ticks init_bot) in
  dom (highest_profits b) = dom (current_tiers b) /\
  dom (highest_profits b) = detected_positions b ∖ blacklist cfg.
Proof.
  intros b.
  assert (forall s,
    (s ∈ dom (highest_profits b) <-> s ∈ dom (current_tiers b)) /\
    (s ∈ dom (highest_profits b) <->
     s ∈ detected_positions b /\ s ∉ blacklist cfg)) as Hall.
  { intros s. rewrite !elem_of_dom.
    pose proof (schedule_task_ok cfg exchange ticks s) as Hok. fold b in Hok.
    unfold symbol_ok in Hok.
    destruct (decide (s ∈ blacklist cfg)) as [Hb|Hb].
    - destruct Hok as (Hh & Ht & _). rewrite Hh, Ht.
      repeat split; intros;
        repeat match goal with
        | H : is_Some None |- _ => destruct H as [? H]; discriminate H
        | H : _ /\ _ |- _ => destruct H
        end; try done; eauto.
    - unfold tracked_ok in Hok.
      destruct (highest_profits b !! s) as [h|].
      + destruct Hok as (Hin & _ & Ht). rewrite Ht.
        repeat split; intros;
        repeat match goal with
        | H : is_Some None |- _ => destruct H as [? H]; discriminate H
        | H : _ /\ _ |- _ => destruct H
        end; try done; eauto.
      + destruct Hok as (Hn & Ht). rewrite Ht.
        repeat split; intros;
        repeat match goal with
        | H : is_Some None |- _ => destruct H as [? H]; discriminate H
        | H : _ /\ _ |- _ => destruct H
        end; try done; eauto. }
  split; apply set_eq; intros s.
  - apply Hall.
  - rewrite elem_of_difference. apply Hall.
Qed.


End Further.

(** ** The further properties on sample inputs *)

Section FurtherSamples.

#[local] Existing Instance binary64.

Lemma refused_order_sent_again_witness :
  orders_of
    (delta init_bot
       (res_state (evaluate cfg_demo refuse_all "BTCUSDT" 1 "long" 100 96
                     (- (4)) init_bot)))
  = [(close_order "BTCUSDT" 1 "sell", false)] /\
  exists returned,
    orders_of
      (delta
         (res_state (evaluate cfg_demo refuse_all "BTCUSDT" 1 "long" 100 96
                       (- (4)) init_bot))
         (res_state (evaluate cfg_demo refuse_all "BTCUSDT" 1 "long" 100 96
                       (- (4))
                       (res_state (evaluate cfg_demo refuse_all "BTCUSDT" 1
                                     "long" 100 96 (- (4)) init_bot)))))
    = [(close_order "BTCUSDT" 1 "sell", returned)].
Proof.
  assert (orders_of
    (delta init_bot
       (res_state (evaluate cfg_demo refuse_all "BTCUSDT" 1 "long" 100 96
                     (- (4)) init_bot)))
    = [(close_order "BTCUSDT" 1 "sell", false)]) as Hrefused
    by (vm_compute; reflexivity).
  split; [exact Hrefused |].
  exact (refused_order_sent_again cfg_demo refuse_all "BTCUSDT" 1 "long" 100 96
           (- (4)) init_bot _ Hrefused).
Defined.

Lemma absent_symbol_untouched_witness :
  ("ETHUSDT" ∉ map pos_symbol [position_of "BTCUSDT" 1 100 103 "long"]) /\
  highest_profits
    (res_state (monitor_positions cfg_demo accept_all
       (Some [position_of "BTCUSDT" 1 100 103 "long"]) init_bot)) !! "ETHUSDT"
  = highest_profits init_bot !! "ETHUSDT".
Proof.
  assert ("ETHUSDT" ∉ map pos_symbol [position_of "BTCUSDT" 1 100 103 "long"])
    as Habsent.
  { simpl. apply not_elem_of_cons. split; [discriminate | apply not_elem_of_nil]. }
  split; [exact Habsent |].
  exact (proj1 (absent_symbol_untouched cfg_demo accept_all _ init_bot _ Habsent)).
Defined.

Lemma orders_well_formed_witness :
  order_ok cfg_demo (close_order "BTCUSDT" 2 "buy").
Proof.
  apply (orders_well_formed cfg_demo accept_all
           [Some [position_of "BTCUSDT" (- (2)) 100 104 "short"]] init_bot
           _ true).
  vm_compute. apply list_elem_of_here.
Defined.

Lemma profit_direction_witness :
  pos_side (position_of "BTCUSDT" 1 100 103 "LONG") = Some "LONG" /\
  exists profit_pct,
    observed "BTCUSDT"
      (delta init_bot
         (res_state (monitor_position cfg_demo accept_all
                       (position_of "BTCUSDT" 1 100 103 "LONG") init_bot)))
    = [profit_pct] /\
    (0 <= profit_pct)%Q.
Proof.
  split; [reflexivity |].
  assert ("BTCUSDT" ∉ blacklist cfg_demo) as Hbl
    by (vm_compute; intros H; discriminate H).
  destruct (proj1 (profit_direction cfg_demo accept_all
                     (position_of "BTCUSDT" 1 100 103 "LONG") "LONG" init_bot
                     eq_refl Hbl eq_refl) eq_refl)
    as (profit_pct & Hobs & _ & Hsign & _).
  exists profit_pct. split; [exact Hobs |]. apply Hsign. discriminate.
Defined.

Lemma side_case_insensitive_witness :
  monitor_position cfg_demo accept_all
    (position_of "BTCUSDT" 1 100 103 "LONG") init_bot =
  monitor_position cfg_demo accept_all
    (position_of "BTCUSDT" 1 100 103 "long") init_bot.
Proof.
  exact (side_case_insensitive cfg_demo accept_all
           (position_of "BTCUSDT" 1 100 103 "LONG") "LONG" init_bot eq_refl).
Defined.

Lemma not_held_ignored_witness :
  monitor_positions cfg_demo accept_all
    (Some ([] ++ position_of "ETHUSDT" 0 100 103 "long" ::
                 [position_of "BTCUSDT" 1 100 103 "long"])) init_bot =
  monitor_positions cfg_demo accept_all
    (Some ([] ++ [position_of "BTCUSDT" 1 100 103 "long"])) init_bot.
Proof.
  apply (not_held_ignored cfg_demo accept_all []
           [position_of "BTCUSDT" 1 100 103 "long"]
           (position_of "ETHUSDT" 0 100 103 "long") init_bot).
  left. reflexivity.
Defined.


End FurtherSamples.
